(** * zimsoap: the Zimbra admin SOAP client (zimsoap/client.py)

    A shallow embedding of [ZimbraAPISession] and [ZimbraAdminClient] and
    the properties of the session life cycle, of response extraction and
    of the request sequences the client issues. *)

From Stdlib Require Import ZArith Lia Ascii String.
From stdpp Require Import gmap strings list fin_maps pretty.

Local Open Scope string_scope.
Local Open Scope Z_scope.

(** ** Python values and exceptions *)

(** The exceptions that can leave the client.  [Fault] stands for whatever
    the SOAP transport (pysimplesoap) or a collaborator raises. *)
Inductive PyExc : Type :=
| ShouldAuthenticateFirst
| ValueError (msg : string)
| AttributeError (attr : string)
| OverflowError
| UnexpectedResponseShape
| Fault (what : string).

Inductive Result (A : Type) : Type :=
| Ok (a : A)
| Raise (e : PyExc).
Arguments Ok {A} a.
Arguments Raise {A} e.

Definition is_ok {A} (r : Result A) : bool :=
  match r with Ok _ => true | Raise _ => false end.

(** An XML element as pysimplesoap hands it to the client: a tag, its
    attributes, its text nodes concatenated, and its child elements. *)
#[warnings="-register-all"] Inductive Xml : Type :=
| Elem (tag : string) (attrs : list (string * string)) (text : string)
       (children : list Xml).

Definition xml_tag (x : Xml) : string := let 'Elem t _ _ _ := x in t.
Definition attributes (x : Xml) : list (string * string) :=
  let 'Elem _ a _ _ := x in a.
(** [str(element)]: the text of the element. *)
Definition xml_str (x : Xml) : string := let 'Elem _ _ s _ := x in s.
Definition xml_children (x : Xml) : list Xml := let 'Elem _ _ _ c := x in c.

(** ** [int(...)] on a string *)

Definition is_space (a : ascii) : bool :=
  let n := nat_of_ascii a in
  (Nat.eqb n 32 || (Nat.leb 9 n && Nat.leb n 13))%bool.

Definition digit_of (a : ascii) : option Z :=
  let n := Z.of_nat (nat_of_ascii a) in
  if (48 <=? n) && (n <=? 57) then Some (n - 48) else None.

Fixpoint lstrip (l : list ascii) : list ascii :=
  match l with
  | a :: l' => if is_space a then lstrip l' else l
  | [] => []
  end.

Definition strip (l : list ascii) : list ascii :=
  rev (lstrip (rev (lstrip l))).

(** Value of a digit sequence, most significant digit first. *)
Fixpoint digits_value (acc : Z) (l : list ascii) : option Z :=
  match l with
  | [] => Some acc
  | a :: l' =>
      match digit_of a with
      | Some d => digits_value (10 * acc + d) l'
      | None => None
      end
  end.

Definition unsigned_value (l : list ascii) : option Z :=
  match l with
  | [] => None
  | _ => digits_value 0 l
  end.

(** [int(s)] for a byte string in base 10: surrounding blanks are dropped,
    a sign is allowed, at least one digit is needed; anything else is a
    [ValueError]. *)
Definition py_int (s : string) : Result Z :=
  let body := strip (list_ascii_of_string s) in
  let r :=
    match body with
    | "-"%char :: ds => Z.opp <$> unsigned_value ds
    | "+"%char :: ds => unsigned_value ds
    | ds => unsigned_value ds
    end in
  match r with
  | Some n => Ok n
  | None => Raise (ValueError "invalid literal for int()")
  end.

(** ** [datetime] *)

(** A naive [datetime] is the number of microseconds since
    0001-01-01T00:00:00; the type ends with 9999-12-31T23:59:59.999999. *)
Definition datetime := Z.
Definition us_per_second : Z := 1000000.
Definition seconds_per_day : Z := 86400.
Definition datetime_max : datetime :=
  3652059 * seconds_per_day * us_per_second - 1.
Definition timedelta_max_days : Z := 999999999.

Definition datetime_in_range (t : Z) : bool :=
  (0 <=? t) && (t <=? datetime_max).

(** [datetime.timedelta(0, seconds)], in microseconds. *)
Definition timedelta (seconds : Z) : Result Z :=
  if Z.abs (seconds / seconds_per_day) >? timedelta_max_days
  then Raise OverflowError
  else Ok (seconds * us_per_second).

(** [datetime + timedelta]. *)
Definition datetime_add (t delta : Z) : Result datetime :=
  if datetime_in_range (t + delta) then Ok (t + delta)
  else Raise OverflowError.

(** ** The session *)

(** What [self.authToken] can hold: [None], a string, or (between two
    statements of [login]) the element taken from the response. *)
Inductive PyVal : Type :=
| PNone
| PStr (s : string)
| PElem (x : Xml).

(** [end_date] is an attribute that [__init__] does not create: [None]
    here means the attribute does not exist yet. *)
Record ZimbraAPISession : Type := mkSession {
  authToken : PyVal;
  end_date : option datetime
}.

(** The [<context>] element built by [get_context_header], as the
    assignments fill it in. *)
Record ContextHeader : Type := mkContext {
  ctx_xmlns : string;
  ctx_authToken : PyVal;
  ctx_authToken_type : string;
  ctx_sessionId_null : string
}.

(** [__init__]: only [authToken] is set. *)
Definition session_init : ZimbraAPISession :=
  {| authToken := PNone; end_date := None |}.

Section Session.

(** Truth value of a pysimplesoap element (its [__len__]). *)
Variable elem_truthy : Xml -> bool.

Definition truthy (v : PyVal) : bool :=
  match v with
  | PNone => false
  | PStr s => negb (String.eqb s "")
  | PElem x => elem_truthy x
  end.

(** [is_logged_in], with the reading of the clock as [now]. *)
Definition is_logged_in (s : ZimbraAPISession) (now : datetime)
  : Result bool :=
  if negb (truthy (authToken s)) then Ok false
  else match end_date s with
       | None => Raise (AttributeError "end_date")
       | Some d => Ok (now <=? d)
       end.

Definition get_context_header (s : ZimbraAPISession) (now : datetime)
  : Result ContextHeader :=
  match is_logged_in s now with
  | Raise e => Raise e
  | Ok false => Raise ShouldAuthenticateFirst
  | Ok true =>
      Ok {| ctx_xmlns := "urn:zimbra";
            ctx_authToken := authToken s;
            ctx_authToken_type := "xsd:string";
            ctx_sessionId_null := "1" |}
  end.

End Session.

(** ** Domain records (zobjects) *)

Inductive ZClass : Type := Domain | Mailbox | DistributionList | ClassOfService.

(** A zobject is its class and its attribute dictionary. *)
Record ZObject : Type := mkZObject {
  zclass : ZClass;
  zattrs : gmap string string
}.

(** Attribute access [obj.name]: an [AttributeError] when the object has
    no such attribute. *)
Definition getattr (o : ZObject) (name : string) : Result string :=
  match zattrs o !! name with
  | Some v => Ok v
  | None => Raise (AttributeError name)
  end.

(** [zobjects.Mailbox(id=account_id)] and the like: the keyword arguments
    become the attributes. *)
Definition new_zobject (cls : ZClass) (kwargs : list (string * string))
  : ZObject :=
  {| zclass := cls; zattrs := list_to_map kwargs |}.

(** ** Response extraction (utils) *)

(** Modelled from the spec: [utils.extractResponses], which is not part of
    client.py.  List extraction yields however many result elements the
    response holds, including zero. *)
Definition extractResponses (response : Xml) : list Xml :=
  xml_children response.

(** Modelled from the spec: [utils.extractSingleResponse], which is not
    part of client.py.  Exactly one result element is expected; zero or
    several are the unexpected-response-shape error. *)
Definition extractSingleResponse (response : Xml) : Result Xml :=
  match extractResponses response with
  | [x] => Ok x
  | _ => Raise UnexpectedResponseShape
  end.

(** ** The client *)

(** The arguments of a SOAP method call, as the client writes them. *)
Inductive CallArgs : Type :=
| NoArgs
| KwArgs (kw : list (string * string))
| SelfWrapEl (selector : Xml)
| Attributes (attrs : list (string * string)).

Record Call : Type := mkCall {
  request : string;
  args : CallArgs
}.

(** The client object: its session, the [context] header set by [login],
    and the requests sent so far, oldest first. *)
Record Client : Type := mkClient {
  session : ZimbraAPISession;
  context : option ContextHeader;
  sent : list Call
}.

Definition set_session (s : ZimbraAPISession) (c : Client) : Client :=
  {| session := s; context := context c; sent := sent c |}.
Definition set_context (h : ContextHeader) (c : Client) : Client :=
  {| session := session c; context := Some h; sent := sent c |}.
Definition record_call (k : Call) (c : Client) : Client :=
  {| session := session c; context := context c; sent := sent c ++ [k] |}.

(** [ZimbraAdminClient.__init__] *)
Definition client_init : Client :=
  {| session := session_init; context := None; sent := [] |}.

(** Computations on the client: a result or an exception, and the client
    as the computation leaves it. *)
Definition M (A : Type) : Type := Client -> Result A * Client.

Definition ret {A} (a : A) : M A := fun c => (Ok a, c).
Definition raise {A} (e : PyExc) : M A := fun c => (Raise e, c).
Definition bind {A B} (m : M A) (k : A -> M B) : M B :=
  fun c => match m c with
           | (Ok a, c') => k a c'
           | (Raise e, c') => (Raise e, c')
           end.
Definition lift {A} (r : Result A) : M A := fun c => (r, c).

(** [try: body  except AttributeError: handler] *)
Definition try_except_AttributeError {A} (body handler : M A) : M A :=
  fun c => match body c with
           | (Raise (AttributeError _), c') => handler c'
           | r => r
           end.

Notation "'do' x <- m ; k" := (bind m (fun x => k))
  (at level 10, x name, m at level 100, k at level 200, only parsing).

(** Pure binding on results, for code that touches no state. *)
Definition rbind {A B} (r : Result A) (k : A -> Result B) : Result B :=
  match r with Ok a => k a | Raise e => Raise e end.

(** A list comprehension [[f(x) for x in l]]: left to right, the first
    exception ends it. *)
Fixpoint comprehension {A B} (f : A -> Result B) (l : list A)
  : Result (list B) :=
  match l with
  | [] => Ok []
  | x :: l' => rbind (f x) (fun y =>
               rbind (comprehension f l') (fun ys => Ok (y :: ys)))
  end.

(** The operations of [ZimbraAdminClient] apart from [login], with their
    arguments. *)
Inductive ClientOp : Type :=
| OpGetAllDomains
| OpGetMailboxStats
| OpCountAccount (domain : ZObject)
| OpGetAllMailboxes
| OpGetAccountMailbox (account_id : string)
| OpGetDistributionList (dl_description : ZObject)
| OpCreateDistributionList (name : string) (dynamic : Z)
| OpDeleteDistributionList (dl : ZObject).

(** The number of requests an operation may send at most. *)
Definition request_budget (op : ClientOp) : nat :=
  match op with
  | OpDeleteDistributionList _ => 2
  | _ => 1
  end.

(** The requests the client sends, by operation. *)
Definition auth_call (username password : string) : Call :=
  {| request := "AuthRequest";
     args := KwArgs [("name", username); ("password", password)] |}.

Definition stats_call : Call :=
  {| request := "GetMailboxStatsRequest"; args := NoArgs |}.
Definition domains_call : Call :=
  {| request := "GetAllDomainsRequest"; args := NoArgs |}.
Definition mailboxes_call : Call :=
  {| request := "GetAllMailboxesRequest"; args := NoArgs |}.
Definition mailbox_call (selector : Xml) : Call :=
  {| request := "GetMailboxRequest"; args := SelfWrapEl selector |}.
Definition get_dl_call (selector : Xml) : Call :=
  {| request := "GetDistributionListRequest"; args := SelfWrapEl selector |}.
Definition create_dl_call (name : string) (dynamic : Z) : Call :=
  {| request := "CreateDistributionListRequest";
     args := Attributes [("name", name); ("dynamic", pretty dynamic)] |}.
Definition delete_dl_call (dl_id : string) : Call :=
  {| request := "DeleteDistributionListRequest";
     args := Attributes [("id", dl_id)] |}.

(** A computation that changes neither the session nor the header. *)
Definition keeps_session {A} (m : M A) : Prop :=
  forall c, session (snd (m c)) = session c /\
            context (snd (m c)) = context c.

(** A computation that only appends to the log of requests, at most [n]
    of them. *)
Definition sends_at_most {A} (n : nat) (m : M A) : Prop :=
  forall c, exists l, sent (snd (m c)) = (sent c ++ l)%list /\
                      (length l <= n)%nat.

(** [self.authToken = v] and [self.end_date = e] on the session. *)
Definition assign_authToken (v : PyVal) : M unit :=
  fun c => (Ok tt, set_session {| authToken := v;
                                  end_date := end_date (session c) |} c).
Definition assign_end_date (e : datetime) : M unit :=
  fun c => (Ok tt, set_session {| authToken := authToken (session c);
                                  end_date := Some e |} c).

Section Client.

Variable elem_truthy : Xml -> bool.
(** The SOAP server behind pysimplesoap: the answer to a request, which may
    depend on the requests sent before it. *)
Variable soap : list Call -> Call -> Result Xml.
(** [zobjects.<Class>.from_xml] and [<zobject>.to_xml_selector]. *)
Variable from_xml : ZClass -> Xml -> Result ZObject.
Variable to_xml_selector : ZObject -> Result Xml.

(** [self.<Name>Request(...)]: one round trip. *)
Definition soap_call (name : string) (a : CallArgs) : M Xml :=
  fun c => let k := {| request := name; args := a |} in
           (soap (sent c) k, record_call k c).

Definition get_all_domains : M (list ZObject) :=
  do resp <- soap_call "GetAllDomainsRequest" NoArgs;
  let xml_doms := extractResponses resp in
  lift (comprehension (from_xml Domain) xml_doms).

(** The loop of [get_mailbox_stats]: [ret[k] = int(v)]. *)
Fixpoint stats_loop (items : list (string * string)) (ret0 : gmap string Z)
  : Result (gmap string Z) :=
  match items with
  | [] => Ok ret0
  | (k, v) :: items' =>
      rbind (py_int v) (fun n => stats_loop items' (<[k := n]> ret0))
  end.

Definition get_mailbox_stats : M (gmap string Z) :=
  do r <- soap_call "GetMailboxStatsRequest" NoArgs;
  do resp <- lift (extractSingleResponse r);
  lift (stats_loop (attributes resp) ∅).

(** The loop of [count_account]:
    [ret.append((ClassOfService.from_xml(i), int(i)))]. *)
Fixpoint count_loop (cos_list : list Xml) (ret0 : list (ZObject * Z))
  : Result (list (ZObject * Z)) :=
  match cos_list with
  | [] => Ok ret0
  | i :: rest =>
      rbind (from_xml ClassOfService i) (fun cos =>
      rbind (py_int (xml_str i)) (fun n =>
      count_loop rest (ret0 ++ [(cos, n)])))
  end.

Definition count_account (domain : ZObject) : M (list (ZObject * Z)) :=
  do selector <- lift (to_xml_selector domain);
  do resp <- soap_call "CountAccountRequest" (SelfWrapEl selector);
  let cos_list := extractResponses resp in
  lift (count_loop cos_list []).

Definition get_all_mailboxes : M (list ZObject) :=
  do resp <- soap_call "GetAllMailboxesRequest" NoArgs;
  let xml_mailboxes := extractResponses resp in
  lift (comprehension (from_xml Mailbox) xml_mailboxes).

Definition get_account_mailbox (account_id : string) : M ZObject :=
  do selector <- lift (to_xml_selector
                         (new_zobject Mailbox [("id", account_id)]));
  do resp <- soap_call "GetMailboxRequest" (SelfWrapEl selector);
  do xml_mbox <- lift (extractSingleResponse resp);
  lift (from_xml Mailbox xml_mbox).

Definition get_distribution_list (dl_description : ZObject) : M ZObject :=
  do selector <- lift (to_xml_selector dl_description);
  do resp <- soap_call "GetDistributionListRequest" (SelfWrapEl selector);
  do x <- lift (extractSingleResponse resp);
  lift (from_xml DistributionList x).

Definition create_distribution_list (name : string) (dynamic : Z)
  : M ZObject :=
  do resp <- soap_call "CreateDistributionListRequest"
               (Attributes [("name", name); ("dynamic", pretty dynamic)]);
  do x <- lift (extractSingleResponse resp);
  lift (from_xml DistributionList x).

Definition delete_distribution_list (dl : ZObject) : M unit :=
  do dl_id <- try_except_AttributeError
                (lift (getattr dl "id"))
                (try_except_AttributeError
                   (do found <- get_distribution_list dl;
                    lift (getattr found "id"))
                   (raise (ValueError "Unqualified DistributionList")));
  do _ <- soap_call "DeleteDistributionListRequest"
            (Attributes [("id", dl_id)]);
  ret tt.

(** [ZimbraAPISession.login]; [now] is the reading of the clock on the
    last line. *)
Definition session_login (username password : string) (now : datetime)
  : M unit :=
  do response <- soap_call "AuthRequest"
                   (KwArgs [("name", username); ("password", password)]);
  match extractResponses response with
  | [tok; lifetime] =>
      do _ <- assign_authToken (PElem tok);
      do lifetime' <- lift (py_int (xml_str lifetime));
      do _ <- assign_authToken (PStr (xml_str tok));
      do delta <- lift (timedelta lifetime');
      do e <- lift (datetime_add now delta);
      assign_end_date e
  | _ => raise (ValueError "wrong number of values to unpack")
  end.

(** [ZimbraAdminClient.login]: the session logs in at [now1], the header
    is built at [now2]. *)
Definition client_login (admin_user admin_password : string)
  (now1 now2 : datetime) : M unit :=
  do _ <- session_login admin_user admin_password now1;
  fun c => match get_context_header elem_truthy (session c) now2 with
           | Ok h => (Ok tt, set_context h c)
           | Raise e => (Raise e, c)
           end.

(** The delete request alone, as the last statement sends it. *)
Definition send_delete (dl_id : string) : M unit :=
  do _ <- soap_call "DeleteDistributionListRequest"
            (Attributes [("id", dl_id)]);
  ret tt.

(** The client as an operation leaves it, whatever the operation returned
    or raised. *)
Definition client_after (op : ClientOp) (c : Client) : Client :=
  match op with
  | OpGetAllDomains => snd (get_all_domains c)
  | OpGetMailboxStats => snd (get_mailbox_stats c)
  | OpCountAccount d => snd (count_account d c)
  | OpGetAllMailboxes => snd (get_all_mailboxes c)
  | OpGetAccountMailbox a =>
      snd (get_account_mailbox a c)
  | OpGetDistributionList d =>
      snd (get_distribution_list d c)
  | OpCreateDistributionList n d =>
      snd (create_distribution_list n d c)
  | OpDeleteDistributionList d =>
      snd (delete_distribution_list d c)
  end.

Definition client_after_all (ops : list ClientOp) (c : Client) : Client :=
  fold_left (fun c op => client_after op c) ops c.

End Client.

(** ** A concrete server and concrete collaborators, for examples *)

Module Demo.

Definition elem_truthy (x : Xml) : bool := true.

(** [from_xml]: the element's attributes become the record's. *)
Definition from_xml (cls : ZClass) (x : Xml) : Result ZObject :=
  Ok {| zclass := cls; zattrs := list_to_map (attributes x) |}.

(** [to_xml_selector]: by id when there is one, else by name. *)
Definition to_xml_selector (o : ZObject) : Result Xml :=
  match zattrs o !! "id", zattrs o !! "name" with
  | Some i, _ => Ok (Elem "sel" [("by", "id")] i [])
  | None, Some n => Ok (Elem "sel" [("by", "name")] n [])
  | None, None => Raise (ValueError "no selector")
  end.

Definition auth_response (token lifetime : string) : Xml :=
  Elem "AuthResponse" [] ""
    [Elem "authToken" [] token []; Elem "lifetime" [] lifetime []].

(** A server that answers every request with the same response. *)
Definition always (r : Result Xml) (_ : list Call) (_ : Call)
  : Result Xml := r.

(** A server holding one distribution list, with or without an id in its
    answers. *)
Definition dl_server (dl_attrs : list (string * string))
  (_ : list Call) (k : Call) : Result Xml :=
  if String.eqb (request k) "GetDistributionListRequest"
  then Ok (Elem "GetDistributionListResponse" [] ""
             [Elem "dl" dl_attrs "" []])
  else Ok (Elem "Response" [] "" []).

(** 2013-01-01T00:00:00 *)
Definition t0 : datetime := 734868 * seconds_per_day * us_per_second.

Definition logged_in_client (token lifetime : string) : Result unit * Client :=
  session_login (always (Ok (auth_response token lifetime)))
    "admin" "secret" t0 client_init.

End Demo.

Module DemoData.

Definition stats_response : Xml :=
  Elem "GetMailboxStatsResponse" [] ""
    [Elem "stats" [("numMboxes", "6"); ("totalSize", "141077")] "" []].

Definition empty_response : Xml := Elem "Response" [] "" [].

Definition two_domains : Xml :=
  Elem "GetAllDomainsResponse" [] ""
    [Elem "domain" [("id", "d1"); ("name", "a.example.com")] "" [];
     Elem "domain" [("id", "d2"); ("name", "b.example.com")] "" []].

Definition by_name : ZObject :=
  new_zobject DistributionList [("name", "l@example.com")].
Definition by_id : ZObject :=
  new_zobject DistributionList [("id", "7")].
Definition by_name_selector : Xml :=
  Elem "sel" [("by", "name")] "l@example.com" [].

(** A conversion that accepts [<domain>] elements only. *)
Definition picky_from_xml (cls : ZClass) (x : Xml) : Result ZObject :=
  if String.eqb (xml_tag x) "domain" then Demo.from_xml cls x
  else Raise (ValueError "unexpected element").

Definition mixed_domains : Xml :=
  Elem "GetAllDomainsResponse" [] ""
    [Elem "domain" [("id", "d1"); ("name", "a.example.com")] "" [];
     Elem "comment" [] "maintenance" [];
     Elem "domain" [("id", "d2"); ("name", "b.example.com")] "" []].

Definition count_response : Xml :=
  Elem "CountAccountResponse" [] ""
    [Elem "cos" [("id", "c1"); ("name", "default")] "3" [];
     Elem "cos" [("id", "c2"); ("name", "premium")] "5" []].

Definition some_domain : ZObject :=
  new_zobject Domain [("name", "example.com")].
Definition some_domain_selector : Xml :=
  Elem "sel" [("by", "name")] "example.com" [].
(** A description with neither id nor name. *)
Definition anonymous : ZObject := new_zobject DistributionList [].

(** A client whose session holds an expired login. *)
Definition stale_client : Client :=
  {| session := {| authToken := PStr "old"; end_date := Some 5 |};
     context := None; sent := [] |}.

Definition bad_stats_response : Xml :=
  Elem "GetMailboxStatsResponse" [] ""
    [Elem "stats" [("numMboxes", "6"); ("totalSize", "big")] "" []].

End DemoData.

(** * Examples *)

Example py_int_ex1 : py_int "3600" = Ok 3600.
Proof. reflexivity. Qed.
Example py_int_ex2 : py_int " -42 " = Ok (-42).
Proof. reflexivity. Qed.
Example py_int_ex3 : py_int "1h" = Raise (ValueError "invalid literal for int()").
Proof. reflexivity. Qed.
Example py_int_ex4 : py_int "" = Raise (ValueError "invalid literal for int()").
Proof. reflexivity. Qed.
Example py_int_ex5 : py_int "+42" = Ok 42.
Proof. reflexivity. Qed.
Example py_int_ex6 : py_int "--1" = Raise (ValueError "invalid literal for int()").
Proof. reflexivity. Qed.

Example pretty_ex1 : pretty 0 = "0".
Proof. reflexivity. Qed.
Example pretty_ex2 : pretty (-5) = "-5".
Proof. reflexivity. Qed.

Example login_ex1 :
  Demo.logged_in_client "tok" "3600" =
    (Ok tt,
     {| session := {| authToken := PStr "tok";
                      end_date := Some (Demo.t0 + 3600 * us_per_second) |};
        context := None;
        sent := [ {| request := "AuthRequest";
                     args := KwArgs [("name", "admin");
                                     ("password", "secret")] |} ] |}).
Proof. reflexivity. Qed.

Example login_ex2 :
  Demo.logged_in_client "tok" "an hour" =
    (Raise (ValueError "invalid literal for int()"),
     {| session := {| authToken := PElem (Elem "authToken" [] "tok" []);
                      end_date := None |};
        context := None;
        sent := [ {| request := "AuthRequest";
                     args := KwArgs [("name", "admin");
                                     ("password", "secret")] |} ] |}).
Proof. reflexivity. Qed.

Example delete_ex1 :
  sent (snd (delete_distribution_list (Demo.dl_server [("id", "42")])
               Demo.from_xml Demo.to_xml_selector
               (new_zobject DistributionList [("name", "l@example.com")])
               client_init)) =
  [ {| request := "GetDistributionListRequest";
       args := SelfWrapEl (Elem "sel" [("by", "name")] "l@example.com" []) |};
    {| request := "DeleteDistributionListRequest";
       args := Attributes [("id", "42")] |} ].
Proof. vm_compute. reflexivity. Qed.

(** * The session life cycle *)

Section SessionFacts.

Variable elem_truthy : Xml -> bool.

Lemma truthy_PStr (s : string) : s <> "" -> truthy elem_truthy (PStr s) = true.
Proof.
  intros Hs. simpl. apply negb_true_iff. now apply String.eqb_neq.
Qed.

Lemma is_logged_in_cases (s : ZimbraAPISession) (now : datetime) (b : bool) :
  is_logged_in elem_truthy s now = Ok b ->
  b = true ->
  truthy elem_truthy (authToken s) = true /\
  exists d, end_date s = Some d /\ now <= d.
Proof.
  unfold is_logged_in. intros H Hb. subst b.
  destruct (truthy elem_truthy (authToken s)); simpl in H; [|discriminate].
  split; [reflexivity|].
  destruct (end_date s) as [d|]; [|discriminate].
  exists d. split; [reflexivity|]. injection H as H. lia.
Qed.

(** C1, as the code has it: the credential fragment is produced exactly
    while the stored token is truthy (set and not empty) and the current
    time is not after the stored expiry, the expiry instant included; the
    fragment carries the stored token.  With no truthy token, or once the
    current time is after the expiry, the call raises
    [ShouldAuthenticateFirst]. *)
Theorem get_context_header_guard (s : ZimbraAPISession) (now : datetime) :
  (forall h, get_context_header elem_truthy s now = Ok h ->
     truthy elem_truthy (authToken s) = true /\
     (exists d, end_date s = Some d /\ now <= d) /\
     h = {| ctx_xmlns := "urn:zimbra"; ctx_authToken := authToken s;
            ctx_authToken_type := "xsd:string";
            ctx_sessionId_null := "1" |}) /\
  (forall d, truthy elem_truthy (authToken s) = true ->
     end_date s = Some d -> now <= d ->
     get_context_header elem_truthy s now =
       Ok {| ctx_xmlns := "urn:zimbra"; ctx_authToken := authToken s;
             ctx_authToken_type := "xsd:string";
             ctx_sessionId_null := "1" |}) /\
  (truthy elem_truthy (authToken s) = false ->
     get_context_header elem_truthy s now = Raise ShouldAuthenticateFirst) /\
  (forall d, end_date s = Some d -> d < now ->
     get_context_header elem_truthy s now = Raise ShouldAuthenticateFirst).
Proof.
  repeat split.
  - unfold get_context_header in H.
    destruct (is_logged_in elem_truthy s now) as [[|]|e] eqn:E;
      try discriminate.
    now destruct (is_logged_in_cases s now true E eq_refl).
  - unfold get_context_header in H.
    destruct (is_logged_in elem_truthy s now) as [[|]|e] eqn:E;
      try discriminate.
    now destruct (is_logged_in_cases s now true E eq_refl).
  - unfold get_context_header in H.
    destruct (is_logged_in elem_truthy s now) as [[|]|e] eqn:E;
      try discriminate.
    now injection H as <-.
  - intros d Ht Hd Hle. unfold get_context_header, is_logged_in.
    rewrite Ht, Hd. simpl.
    replace (now <=? d) with true by (symmetry; apply Z.leb_le; lia).
    reflexivity.
  - intros Ht. unfold get_context_header, is_logged_in.
    now rewrite Ht.
  - intros d Hd Hlt. unfold get_context_header, is_logged_in.
    rewrite Hd.
    destruct (truthy elem_truthy (authToken s)); simpl; [|reflexivity].
    replace (now <=? d) with false by (symmetry; apply Z.leb_gt; lia).
    reflexivity.
Qed.

(** C10: without a token, [is_logged_in] answers [False] and does not
    raise, whether or not [end_date] exists: the expiry is looked at only
    after the token test. *)
Theorem is_logged_in_without_token (s : ZimbraAPISession) (now : datetime) :
  authToken s = PNone ->
  is_logged_in elem_truthy s now = Ok false.
Proof.
  intros H. unfold is_logged_in. now rewrite H.
Qed.

(** A truthy token with no [end_date] attribute: the comparison raises. *)
Lemma is_logged_in_no_end_date (s : ZimbraAPISession) (now : datetime) :
  truthy elem_truthy (authToken s) = true -> end_date s = None ->
  is_logged_in elem_truthy s now = Raise (AttributeError "end_date").
Proof.
  intros Ht Hd. unfold is_logged_in. now rewrite Ht, Hd.
Qed.

End SessionFacts.

Lemma get_context_header_guard_witness :
  get_context_header Demo.elem_truthy
    {| authToken := PStr "tok"; end_date := Some (Demo.t0 + 5) |} Demo.t0 =
    Ok {| ctx_xmlns := "urn:zimbra"; ctx_authToken := PStr "tok";
          ctx_authToken_type := "xsd:string"; ctx_sessionId_null := "1" |} /\
  get_context_header Demo.elem_truthy
    {| authToken := PStr "tok"; end_date := Some (Demo.t0 + 5) |}
    (Demo.t0 + 6) = Raise ShouldAuthenticateFirst /\
  get_context_header Demo.elem_truthy
    {| authToken := PStr ""; end_date := Some (Demo.t0 + 5) |} Demo.t0 =
    Raise ShouldAuthenticateFirst.
Proof.
  split; [|split].
  - apply (proj1 (proj2 (get_context_header_guard Demo.elem_truthy
             {| authToken := PStr "tok"; end_date := Some (Demo.t0 + 5) |}
             Demo.t0)) (Demo.t0 + 5)); [reflexivity | reflexivity | lia].
  - apply (proj2 (proj2 (proj2 (get_context_header_guard Demo.elem_truthy
             {| authToken := PStr "tok"; end_date := Some (Demo.t0 + 5) |}
             (Demo.t0 + 6)))) (Demo.t0 + 5)); [reflexivity | lia].
  - apply (proj1 (proj2 (proj2 (get_context_header_guard Demo.elem_truthy
             {| authToken := PStr ""; end_date := Some (Demo.t0 + 5) |}
             Demo.t0)))); reflexivity.
Defined.

(** C1 as the spec words it fails at the expiry instant itself: the
    fragment is still produced when the current time equals [end_date].
    It also fails for a token that is set to the empty string: before the
    expiry the call raises all the same. *)
Lemma get_context_header_at_expiry :
  get_context_header Demo.elem_truthy
    {| authToken := PStr "tok"; end_date := Some Demo.t0 |} Demo.t0 =
    Ok {| ctx_xmlns := "urn:zimbra"; ctx_authToken := PStr "tok";
          ctx_authToken_type := "xsd:string"; ctx_sessionId_null := "1" |} /\
  ~ (Demo.t0 < Demo.t0) /\
  get_context_header Demo.elem_truthy
    {| authToken := PStr ""; end_date := Some (Demo.t0 + 5) |} Demo.t0 =
    Raise ShouldAuthenticateFirst /\
  Demo.t0 < Demo.t0 + 5.
Proof.
  split; [reflexivity|]. split; [lia|]. split; [reflexivity | lia].
Qed.

Lemma is_logged_in_without_token_witness :
  authToken session_init = PNone /\ end_date session_init = None /\
  is_logged_in Demo.elem_truthy session_init Demo.t0 = Ok false.
Proof.
  split; [reflexivity|]. split; [reflexivity|].
  apply (is_logged_in_without_token Demo.elem_truthy session_init Demo.t0).
  reflexivity.
Defined.

(** * The login exchange *)

Section LoginFacts.

Variable elem_truthy : Xml -> bool.
Variable soap : list Call -> Call -> Result Xml.

(** A lifetime that keeps the expiry inside [datetime] is far below the
    limit of [timedelta]. *)
Lemma timedelta_in_range (now n : Z) :
  datetime_in_range now = true ->
  datetime_in_range (now + n * us_per_second) = true ->
  timedelta n = Ok (n * us_per_second).
Proof.
  unfold datetime_in_range, timedelta, datetime_max, timedelta_max_days,
    us_per_second, seconds_per_day.
  intros H1 H2.
  apply andb_true_iff in H1 as [H1a H1b], H2 as [H2a H2b].
  apply Z.leb_le in H1a, H1b, H2a, H2b.
  assert (Hq : -3652060 <= n / 86400 <= 3652060).
  { split.
    - apply Z.div_le_lower_bound; lia.
    - apply Z.div_le_upper_bound; lia. }
  destruct (Z.abs (n / 86400) >? 999999999) eqn:E; [|reflexivity].
  apply Z.gtb_lt in E. lia.
Qed.

(** What a login that returns normally has done. *)
Lemma session_login_ok_inv (u p : string) (now : datetime) (c c' : Client) :
  session_login soap u p now c = (Ok tt, c') ->
  exists resp tok life n,
    soap (sent c) (auth_call u p) = Ok resp /\
    extractResponses resp = [tok; life] /\
    py_int (xml_str life) = Ok n /\
    c' = {| session := {| authToken := PStr (xml_str tok);
                          end_date := Some (now + n * us_per_second) |};
            context := context c;
            sent := sent c ++ [auth_call u p] |}.
Proof.
  unfold session_login, bind, soap_call, lift, raise, assign_authToken,
    assign_end_date. fold (auth_call u p).
  destruct (soap (sent c) (auth_call u p)) as [resp|e] eqn:Es;
    [|discriminate].
  destruct (extractResponses resp) as [|tok [|life [|x l]]] eqn:Ex;
    try discriminate.
  destruct (py_int (xml_str life)) as [n|e] eqn:En; [|discriminate].
  destruct (timedelta n) as [delta|e] eqn:Ed; [|discriminate].
  destruct (datetime_add now delta) as [e'|e] eqn:Ea; [|discriminate].
  intros H. injection H as <-.
  exists resp, tok, life, n.
  split; [first [exact Es | reflexivity]|].
  split; [first [exact Ex | reflexivity]|].
  split; [first [exact En | reflexivity]|].
  unfold timedelta in Ed.
  destruct (Z.abs (n / seconds_per_day) >? timedelta_max_days);
    [discriminate|]. injection Ed as <-.
  unfold datetime_add in Ea.
  destruct (datetime_in_range (now + n * us_per_second));
    [|discriminate]. injection Ea as <-.
  reflexivity.
Qed.

(** C3, as the code has it: when the exchange answers with token [tok] and
    lifetime [n] and the login time plus [n] seconds is still a [datetime],
    [login] stores the token as a string and sets [end_date] to the login
    time plus [n] seconds; when the transport raises, [login] raises the
    same error after that single request and leaves the session as it
    was. *)
Theorem session_login_stores (u p : string) (now : datetime) (c : Client) :
  (forall resp tok life n,
     soap (sent c) (auth_call u p) = Ok resp ->
     extractResponses resp = [tok; life] ->
     py_int (xml_str life) = Ok n ->
     datetime_in_range now = true ->
     datetime_in_range (now + n * us_per_second) = true ->
     session_login soap u p now c =
       (Ok tt,
        {| session := {| authToken := PStr (xml_str tok);
                         end_date := Some (now + n * us_per_second) |};
           context := context c;
           sent := sent c ++ [auth_call u p] |})) /\
  (forall e,
     soap (sent c) (auth_call u p) = Raise e ->
     session_login soap u p now c =
       (Raise e,
        {| session := session c; context := context c;
           sent := sent c ++ [auth_call u p] |})).
Proof.
  split.
  - intros resp tok life n Hs Hx Hn Hnow Hend.
    unfold session_login, bind, soap_call, lift, assign_authToken,
      assign_end_date. fold (auth_call u p).
    rewrite Hs, Hx, Hn. simpl.
    rewrite (timedelta_in_range now n Hnow Hend).
    unfold datetime_add. rewrite Hend. reflexivity.
  - intros e Hs.
    unfold session_login, bind, soap_call. fold (auth_call u p).
    rewrite Hs. reflexivity.
Qed.

(** C2, as the code has it: after a login at [T0] that returned normally
    with a non-empty token and lifetime [L], [is_logged_in] is true at
    every instant up to the expiry [T0 + L] seconds and false at every
    instant after it; for [L = 3600] it is true at [T0 + 3599] seconds and
    false at [T0 + 3601] seconds. *)
Theorem is_logged_in_after_login (u p : string) (T0 : datetime)
  (c c' : Client) (resp tok life : Xml) (L : Z) :
  soap (sent c) (auth_call u p) = Ok resp ->
  extractResponses resp = [tok; life] ->
  py_int (xml_str life) = Ok L ->
  xml_str tok <> "" ->
  session_login soap u p T0 c = (Ok tt, c') ->
  (forall t, t <= T0 + L * us_per_second ->
     is_logged_in elem_truthy (session c') t = Ok true) /\
  (forall t, T0 + L * us_per_second < t ->
     is_logged_in elem_truthy (session c') t = Ok false) /\
  (L = 3600 ->
     is_logged_in elem_truthy (session c') (T0 + 3599 * us_per_second)
       = Ok true /\
     is_logged_in elem_truthy (session c') (T0 + 3601 * us_per_second)
       = Ok false).
Proof.
  intros Hs Hx Hn Htok Hlogin.
  destruct (session_login_ok_inv u p T0 c c' Hlogin)
    as (resp' & tok' & life' & n & Hs' & Hx' & Hn' & ->).
  rewrite Hs in Hs'. injection Hs' as <-.
  rewrite Hx in Hx'. injection Hx' as <- <-.
  rewrite Hn in Hn'. injection Hn' as <-.
  assert (Hin : forall t, is_logged_in elem_truthy
             {| authToken := PStr (xml_str tok);
                end_date := Some (T0 + L * us_per_second) |} t =
             Ok (t <=? T0 + L * us_per_second)).
  { intros t. unfold is_logged_in. cbn [authToken end_date].
    now rewrite (truthy_PStr elem_truthy _ Htok). }
  cbn [session]. split; [|split; [|split]].
  - intros t Ht. rewrite Hin. f_equal. apply Z.leb_le. lia.
  - intros t Ht. rewrite Hin. f_equal. apply Z.leb_gt. lia.
  - rewrite Hin. f_equal. apply Z.leb_le. unfold us_per_second. lia.
  - rewrite Hin. f_equal. apply Z.leb_gt. unfold us_per_second. lia.
Qed.

End LoginFacts.

Lemma session_login_stores_witness :
  Demo.logged_in_client "tok" "3600" =
    (Ok tt,
     {| session := {| authToken := PStr "tok";
                      end_date := Some (Demo.t0 + 3600 * us_per_second) |};
        context := None;
        sent := [auth_call "admin" "secret"] |}).
Proof.
  apply (proj1 (session_login_stores
                  (Demo.always (Ok (Demo.auth_response "tok" "3600")))
                  "admin" "secret" Demo.t0 client_init)
           (Demo.auth_response "tok" "3600")
           (Elem "authToken" [] "tok" []) (Elem "lifetime" [] "3600" [])
           3600); reflexivity.
Defined.

(** C3 as the spec words it fails for a lifetime that carries the expiry
    past the last [datetime]: the exchange succeeds, [login] raises
    [OverflowError] and [end_date] is not set. *)
Lemma session_login_overflow :
  Demo.logged_in_client "tok" "1000000000000" =
    (Raise OverflowError,
     {| session := {| authToken := PStr "tok"; end_date := None |};
        context := None;
        sent := [auth_call "admin" "secret"] |}) /\
  datetime_in_range Demo.t0 = true /\
  py_int "1000000000000" = Ok 1000000000000.
Proof.
  repeat split.
Qed.

Lemma is_logged_in_after_login_witness :
  is_logged_in Demo.elem_truthy
    (session (snd (Demo.logged_in_client "tok" "3600")))
    (Demo.t0 + 3599 * us_per_second) = Ok true /\
  is_logged_in Demo.elem_truthy
    (session (snd (Demo.logged_in_client "tok" "3600")))
    (Demo.t0 + 3601 * us_per_second) = Ok false.
Proof.
  refine (proj2 (proj2 (is_logged_in_after_login Demo.elem_truthy
            (Demo.always (Ok (Demo.auth_response "tok" "3600")))
            "admin" "secret" Demo.t0 client_init
            (snd (Demo.logged_in_client "tok" "3600"))
            (Demo.auth_response "tok" "3600")
            (Elem "authToken" [] "tok" []) (Elem "lifetime" [] "3600" [])
            3600 _ _ _ _ _)) _); try reflexivity.
  simpl. discriminate.
Defined.

(** C2 as the spec words it fails for a login whose token is the empty
    string: [login] returns normally, and [is_logged_in] is false well
    before the expiry, the empty string being falsy. *)
Lemma is_logged_in_after_login_empty_token :
  Demo.logged_in_client "" "3600" =
    (Ok tt,
     {| session := {| authToken := PStr "";
                      end_date := Some (Demo.t0 + 3600 * us_per_second) |};
        context := None;
        sent := [auth_call "admin" "secret"] |}) /\
  is_logged_in Demo.elem_truthy
    (session (snd (Demo.logged_in_client "" "3600")))
    (Demo.t0 + 3599 * us_per_second) = Ok false.
Proof.
  split; reflexivity.
Qed.

(** C4 on the code: a fresh session whose first login fails after the
    token was stored has had no successful login, yet
    [get_context_header] does not raise [ShouldAuthenticateFirst] on it.
    [login] assigns [authToken] before the lifetime is converted and
    before the expiry is computed, so a failure there leaves a truthy
    token and no [end_date], and [is_logged_in] raises [AttributeError]
    on reading it.  With a lifetime that overflows [datetime] the token
    left behind is a string; with a lifetime that is not an integer it is
    the element of the response. *)
Lemma get_context_header_after_failed_login :
  fst (Demo.logged_in_client "tok" "1000000000000") = Raise OverflowError /\
  session (snd (Demo.logged_in_client "tok" "1000000000000"))
    = {| authToken := PStr "tok"; end_date := None |} /\
  (forall (elem_truthy : Xml -> bool) (t : datetime),
     get_context_header elem_truthy
       (session (snd (Demo.logged_in_client "tok" "1000000000000"))) t
     = Raise (AttributeError "end_date")) /\
  fst (Demo.logged_in_client "tok" "an hour")
    = Raise (ValueError "invalid literal for int()") /\
  (forall t : datetime,
     get_context_header Demo.elem_truthy
       (session (snd (Demo.logged_in_client "tok" "an hour"))) t
     = Raise (AttributeError "end_date")).
Proof.
  split; [reflexivity|]. split; [reflexivity|].
  split; [intros elem_truthy t; reflexivity|].
  split; [reflexivity|]. intros t. reflexivity.
Qed.

(** * Frame: what the client operations leave alone *)

Lemma keeps_ret {A} (a : A) : keeps_session (ret a).
Proof. now intros c. Qed.

Lemma keeps_raise {A} (e : PyExc) : keeps_session (@raise A e).
Proof. now intros c. Qed.

Lemma keeps_lift {A} (r : Result A) : keeps_session (lift r).
Proof. now intros c. Qed.

Lemma keeps_bind {A B} (m : M A) (k : A -> M B) :
  keeps_session m -> (forall a, keeps_session (k a)) ->
  keeps_session (bind m k).
Proof.
  intros Hm Hk c. unfold bind.
  destruct (Hm c) as [Hs Hc].
  destruct (m c) as [[a|e] c1]; simpl in *.
  - destruct (Hk a c1) as [Hs' Hc']. split; congruence.
  - now split.
Qed.

Lemma keeps_try {A} (body handler : M A) :
  keeps_session body -> keeps_session handler ->
  keeps_session (try_except_AttributeError body handler).
Proof.
  intros Hb Hh c. unfold try_except_AttributeError.
  destruct (Hb c) as [Hs Hc].
  destruct (body c) as [[a|e] c1]; simpl in *; [now split|].
  destruct e; simpl; try (now split).
  destruct (Hh c1) as [Hs' Hc']. split; congruence.
Qed.

Section Frame.

Variable soap : list Call -> Call -> Result Xml.
Variable from_xml : ZClass -> Xml -> Result ZObject.
Variable to_xml_selector : ZObject -> Result Xml.

Lemma keeps_soap_call (name : string) (a : CallArgs) :
  keeps_session (soap_call soap name a).
Proof. now intros c. Qed.

Ltac frame := intros; repeat (first
  [ apply keeps_bind; [|intros ?] | apply keeps_try
  | apply keeps_soap_call | apply keeps_lift | apply keeps_ret
  | apply keeps_raise ]).

Lemma keeps_get_distribution_list (dl : ZObject) :
  keeps_session (get_distribution_list soap from_xml to_xml_selector dl).
Proof. unfold get_distribution_list. frame. Qed.

Lemma client_after_session (op : ClientOp) (c : Client) :
  session (client_after soap from_xml to_xml_selector op c) = session c.
Proof.
  destruct op; simpl;
    match goal with
    | |- session (snd (?m c)) = _ =>
        assert (K : keeps_session m);
        [ first [ apply keeps_get_distribution_list
                | unfold get_all_domains, get_mailbox_stats, count_account,
                    get_all_mailboxes, get_account_mailbox,
                    create_distribution_list, delete_distribution_list;
                  frame; apply keeps_get_distribution_list ]
        | exact (proj1 (K c)) ]
    end.
Qed.

Lemma client_after_all_session (ops : list ClientOp) (c : Client) :
  session (client_after_all soap from_xml to_xml_selector ops c) = session c.
Proof.
  revert c. induction ops as [|op ops IH]; intros c; [reflexivity|].
  unfold client_after_all in *. simpl. rewrite IH.
  apply client_after_session.
Qed.

(** C9: none of the client operations other than [login] changes the
    session: [authToken] and [end_date] are after the operation what they
    were before it, whether it returned or raised. *)
Theorem client_op_keeps_session (op : ClientOp) (c : Client) :
  authToken (session (client_after soap from_xml to_xml_selector op c))
    = authToken (session c) /\
  end_date (session (client_after soap from_xml to_xml_selector op c))
    = end_date (session c).
Proof.
  now rewrite client_after_session.
Qed.

(** On a freshly constructed client on which [login] was never called,
    whatever other operations were called in between,
    [get_context_header] raises [ShouldAuthenticateFirst]. *)
Theorem get_context_header_before_login (elem_truthy : Xml -> bool)
  (ops : list ClientOp) (now : datetime) :
  get_context_header elem_truthy session_init now
    = Raise ShouldAuthenticateFirst /\
  get_context_header elem_truthy
    (session (client_after_all soap from_xml to_xml_selector ops client_init)) now
    = Raise ShouldAuthenticateFirst.
Proof.
  rewrite client_after_all_session. split; reflexivity.
Qed.

End Frame.

(** * Request dispatch and response extraction *)

Lemma extractSingleResponse_one (r x : Xml) :
  extractResponses r = [x] -> extractSingleResponse r = Ok x.
Proof. unfold extractSingleResponse. now intros ->. Qed.

Lemma extractSingleResponse_other (r : Xml) :
  length (extractResponses r) <> 1%nat ->
  extractSingleResponse r = Raise UnexpectedResponseShape.
Proof.
  unfold extractSingleResponse.
  destruct (extractResponses r) as [|x [|y l]]; simpl; intros H;
    try reflexivity. now contradict H.
Qed.

Lemma comprehension_Forall2 {A B} (f : A -> Result B) (l : list A)
  (ys : list B) :
  comprehension f l = Ok ys -> Forall2 (fun x y => f x = Ok y) l ys.
Proof.
  revert ys. induction l as [|x l IH]; simpl; intros ys H.
  - injection H as <-. constructor.
  - destruct (f x) as [y|e] eqn:Ef; simpl in H; [|discriminate].
    destruct (comprehension f l) as [ys'|e]; simpl in H; [|discriminate].
    injection H as <-. constructor; [exact Ef | now apply IH].
Qed.

Lemma comprehension_total {A B} (f : A -> Result B) (l : list A) :
  Forall (fun x => exists y, f x = Ok y) l ->
  exists ys, comprehension f l = Ok ys.
Proof.
  induction 1 as [|x l [y Hy] _ [ys IH]]; simpl.
  - now exists [].
  - rewrite Hy, IH. simpl. now exists (y :: ys).
Qed.

Section Dispatch.

Variable soap : list Call -> Call -> Result Xml.
Variable from_xml : ZClass -> Xml -> Result ZObject.
Variable to_xml_selector : ZObject -> Result Xml.

Abbreviation get_distribution_list' :=
  (get_distribution_list soap from_xml to_xml_selector).
Abbreviation delete_distribution_list' :=
  (delete_distribution_list soap from_xml to_xml_selector).

(** The lookup sends its one request as soon as the selector is built. *)
Lemma get_distribution_list_run (dl : ZObject) (sel : Xml) (c : Client) :
  to_xml_selector dl = Ok sel ->
  get_distribution_list' dl c =
    (rbind (soap (sent c) (get_dl_call sel)) (fun r =>
     rbind (extractSingleResponse r) (from_xml DistributionList)),
     record_call (get_dl_call sel) c).
Proof.
  intros Hsel. unfold get_distribution_list, bind, lift, soap_call.
  rewrite Hsel. fold (get_dl_call sel).
  destruct (soap (sent c) (get_dl_call sel)) as [r|e]; [|reflexivity].
  simpl. now destruct (extractSingleResponse r).
Qed.

Lemma get_distribution_list_no_selector (dl : ZObject) (e : PyExc)
  (c : Client) :
  to_xml_selector dl = Raise e ->
  get_distribution_list' dl c = (Raise e, c).
Proof.
  intros Hsel. unfold get_distribution_list, bind, lift.
  now rewrite Hsel.
Qed.

(** One request, then the single-element extraction: rewrite with the
    server's answer [Hs] and the outcome of the extraction [Hx]. *)
Ltac single_step Hs Hx :=
  unfold bind, lift, soap_call; cbv beta iota zeta;
  unfold stats_call, mailbox_call, create_dl_call in Hs;
  rewrite Hs; cbv beta iota; rewrite Hx; reflexivity.

(** C7: single-result extraction succeeds exactly on a response with one
    result element; on zero or several elements it is the
    unexpected-response-shape error, and so is each of
    [get_mailbox_stats], [get_account_mailbox], [get_distribution_list]
    and [create_distribution_list] on such a response; on one element
    each of them goes on with that element. *)
Theorem single_result_extraction (c : Client) (r : Xml) :
  (is_ok (extractSingleResponse r) = true <->
     length (extractResponses r) = 1%nat) /\
  (length (extractResponses r) <> 1%nat ->
     extractSingleResponse r = Raise UnexpectedResponseShape /\
     (soap (sent c) stats_call = Ok r ->
        fst (get_mailbox_stats soap c) = Raise UnexpectedResponseShape) /\
     (forall a sel,
        to_xml_selector (new_zobject Mailbox [("id", a)]) = Ok sel ->
        soap (sent c) (mailbox_call sel) = Ok r ->
        fst (get_account_mailbox soap from_xml to_xml_selector a c)
          = Raise UnexpectedResponseShape) /\
     (forall dl sel,
        to_xml_selector dl = Ok sel ->
        soap (sent c) (get_dl_call sel) = Ok r ->
        fst (get_distribution_list' dl c) = Raise UnexpectedResponseShape) /\
     (forall n d,
        soap (sent c) (create_dl_call n d) = Ok r ->
        fst (create_distribution_list soap from_xml n d c)
          = Raise UnexpectedResponseShape)) /\
  (forall x, extractResponses r = [x] ->
     extractSingleResponse r = Ok x /\
     (soap (sent c) stats_call = Ok r ->
        fst (get_mailbox_stats soap c) = stats_loop (attributes x) ∅) /\
     (forall a sel,
        to_xml_selector (new_zobject Mailbox [("id", a)]) = Ok sel ->
        soap (sent c) (mailbox_call sel) = Ok r ->
        fst (get_account_mailbox soap from_xml to_xml_selector a c)
          = from_xml Mailbox x) /\
     (forall dl sel,
        to_xml_selector dl = Ok sel ->
        soap (sent c) (get_dl_call sel) = Ok r ->
        fst (get_distribution_list' dl c) = from_xml DistributionList x) /\
     (forall n d,
        soap (sent c) (create_dl_call n d) = Ok r ->
        fst (create_distribution_list soap from_xml n d c)
          = from_xml DistributionList x)).
Proof.
  split; [|split].
  - unfold extractSingleResponse.
    destruct (extractResponses r) as [|x [|y l]]; simpl;
      split; intros H; try reflexivity; discriminate.
  - intros Hlen. pose proof (extractSingleResponse_other r Hlen) as Hx.
    split; [exact Hx|]. split; [|split; [|split]].
    + intros Hs. unfold get_mailbox_stats. single_step Hs Hx.
    + intros a sel Hsel Hs. unfold get_account_mailbox.
      unfold bind at 1, lift at 1. rewrite Hsel. single_step Hs Hx.
    + intros dl sel Hsel Hs.
      rewrite (get_distribution_list_run dl sel c Hsel).
      cbn [fst]. rewrite Hs. cbn [rbind]. now rewrite Hx.
    + intros n d Hs. unfold create_distribution_list. single_step Hs Hx.
  - intros x Hone. pose proof (extractSingleResponse_one r x Hone) as Hx.
    split; [exact Hx|]. split; [|split; [|split]].
    + intros Hs. unfold get_mailbox_stats. single_step Hs Hx.
    + intros a sel Hsel Hs. unfold get_account_mailbox.
      unfold bind at 1, lift at 1. rewrite Hsel. single_step Hs Hx.
    + intros dl sel Hsel Hs.
      rewrite (get_distribution_list_run dl sel c Hsel).
      cbn [fst]. rewrite Hs. cbn [rbind]. now rewrite Hx.
    + intros n d Hs. unfold create_distribution_list. single_step Hs Hx.
Qed.

(** C8: [get_all_domains] and [get_all_mailboxes] return one record per
    result element of the response, in the order of the response, each
    the conversion of its element; the list is produced whenever every
    element converts, and a response without elements gives the empty
    list, not an error. *)
Theorem list_extraction (c : Client) (r : Xml) :
  (soap (sent c) domains_call = Ok r ->
     (forall objs, fst (get_all_domains soap from_xml c) = Ok objs ->
        Forall2 (fun x o => from_xml Domain x = Ok o)
          (extractResponses r) objs /\
        length objs = length (extractResponses r)) /\
     (Forall (fun x => exists o, from_xml Domain x = Ok o)
        (extractResponses r) ->
      exists objs, fst (get_all_domains soap from_xml c) = Ok objs) /\
     (extractResponses r = [] ->
      fst (get_all_domains soap from_xml c) = Ok [])) /\
  (soap (sent c) mailboxes_call = Ok r ->
     (forall objs, fst (get_all_mailboxes soap from_xml c) = Ok objs ->
        Forall2 (fun x o => from_xml Mailbox x = Ok o)
          (extractResponses r) objs /\
        length objs = length (extractResponses r)) /\
     (Forall (fun x => exists o, from_xml Mailbox x = Ok o)
        (extractResponses r) ->
      exists objs, fst (get_all_mailboxes soap from_xml c) = Ok objs) /\
     (extractResponses r = [] ->
      fst (get_all_mailboxes soap from_xml c) = Ok [])).
Proof.
  split; intros Hs.
  - assert (E : fst (get_all_domains soap from_xml c) =
                comprehension (from_xml Domain) (extractResponses r)).
    { unfold get_all_domains, bind, lift, soap_call. fold domains_call.
      now rewrite Hs. }
    rewrite E. split; [|split].
    + intros objs H. pose proof (comprehension_Forall2 _ _ _ H) as F.
      split; [exact F|]. symmetry. exact (Forall2_length _ _ _ F).
    + apply comprehension_total.
    + now intros ->.
  - assert (E : fst (get_all_mailboxes soap from_xml c) =
                comprehension (from_xml Mailbox) (extractResponses r)).
    { unfold get_all_mailboxes, bind, lift, soap_call. fold mailboxes_call.
      now rewrite Hs. }
    rewrite E. split; [|split].
    + intros objs H. pose proof (comprehension_Forall2 _ _ _ H) as F.
      split; [exact F|]. symmetry. exact (Forall2_length _ _ _ F).
    + apply comprehension_total.
    + now intros ->.
Qed.

End Dispatch.

(** * Deleting a distribution list *)

Section Delete.

Variable soap : list Call -> Call -> Result Xml.
Variable from_xml : ZClass -> Xml -> Result ZObject.
Variable to_xml_selector : ZObject -> Result Xml.

Abbreviation lookup := (get_distribution_list soap from_xml to_xml_selector).
Abbreviation delete := (delete_distribution_list soap from_xml to_xml_selector).

Lemma send_delete_sent (i : string) (c : Client) :
  sent (snd (send_delete soap i c)) = (sent c ++ [delete_dl_call i])%list.
Proof.
  unfold send_delete, bind, soap_call. cbv zeta.
  fold (delete_dl_call i).
  now destruct (soap (sent c) (delete_dl_call i)).
Qed.

Lemma delete_with_id (dl : ZObject) (i : string) (c : Client) :
  zattrs dl !! "id" = Some i ->
  delete dl c = send_delete soap i c.
Proof.
  intros Hid.
  unfold delete_distribution_list, send_delete, try_except_AttributeError,
    getattr, lift.
  unfold bind at 1. now rewrite Hid.
Qed.

(** With no id on the description, a run of the delete is one run of the
    lookup, then the delete request on the client the lookup left. *)
Lemma delete_without_id (dl : ZObject) (c : Client) :
  zattrs dl !! "id" = None ->
  delete dl c =
    match lookup dl c with
    | (Ok found, c1) =>
        match zattrs found !! "id" with
        | Some i => send_delete soap i c1
        | None => (Raise (ValueError "Unqualified DistributionList"), c1)
        end
    | (Raise (AttributeError _), c1) =>
        (Raise (ValueError "Unqualified DistributionList"), c1)
    | (Raise e, c1) => (Raise e, c1)
    end.
Proof.
  intros Hid.
  unfold delete_distribution_list, send_delete, try_except_AttributeError,
    getattr, lift, raise.
  unfold bind at 1. rewrite Hid. unfold bind at 1.
  destruct (lookup dl c) as [[found|e] c1].
  - now destruct (zattrs found !! "id").
  - now destruct e.
Qed.

(** C5: a description with an id is deleted by the one delete request
    with that id, and no lookup is made; a description without an id is
    looked up exactly once, first, and the delete request that follows
    carries the id of the record the lookup returned. *)
Theorem delete_distribution_list_requests (dl : ZObject) (c : Client) :
  (forall i, zattrs dl !! "id" = Some i ->
     delete dl c = send_delete soap i c /\
     sent (snd (delete dl c)) = (sent c ++ [delete_dl_call i])%list) /\
  (zattrs dl !! "id" = None ->
     delete dl c =
       match lookup dl c with
       | (Ok found, c1) =>
           match zattrs found !! "id" with
           | Some i => send_delete soap i c1
           | None => (Raise (ValueError "Unqualified DistributionList"), c1)
           end
       | (Raise (AttributeError _), c1) =>
           (Raise (ValueError "Unqualified DistributionList"), c1)
       | (Raise e, c1) => (Raise e, c1)
       end) /\
  (forall sel, zattrs dl !! "id" = None -> to_xml_selector dl = Ok sel ->
     sent (snd (delete dl c)) =
       (sent c ++ get_dl_call sel ::
          match fst (lookup dl c) with
          | Ok found =>
              match zattrs found !! "id" with
              | Some i => [delete_dl_call i]
              | None => []
              end
          | Raise _ => []
          end)%list).
Proof.
  split; [|split].
  - intros i Hid. rewrite (delete_with_id dl i c Hid).
    split; [reflexivity | apply send_delete_sent].
  - apply delete_without_id.
  - intros sel Hid Hsel. rewrite (delete_without_id dl c Hid).
    rewrite (get_distribution_list_run soap from_xml to_xml_selector
               dl sel c Hsel).
    cbn [fst].
    destruct (rbind (soap (sent c) (get_dl_call sel)) _) as [found|e].
    + destruct (zattrs found !! "id") as [i|].
      * rewrite send_delete_sent. simpl. now rewrite <- app_assoc.
      * reflexivity.
    + now destruct e.
Qed.

(** C6: when the description has no id and the record the lookup returns
    has none either, the delete raises [ValueError] and the lookup
    request is the only request sent. *)
Theorem delete_distribution_list_unqualified (dl found : ZObject)
  (c : Client) :
  zattrs dl !! "id" = None ->
  fst (lookup dl c) = Ok found ->
  zattrs found !! "id" = None ->
  fst (delete dl c) = Raise (ValueError "Unqualified DistributionList") /\
  exists sel, to_xml_selector dl = Ok sel /\
              sent (snd (delete dl c)) = (sent c ++ [get_dl_call sel])%list.
Proof.
  intros Hid Hfound Hnone.
  rewrite (delete_without_id dl c Hid).
  destruct (to_xml_selector dl) as [sel|e] eqn:Hsel.
  - rewrite (get_distribution_list_run soap from_xml to_xml_selector
               dl sel c Hsel) in *.
    cbn [fst] in Hfound. rewrite Hfound, Hnone.
    split; [reflexivity|]. now exists sel.
  - rewrite (get_distribution_list_no_selector soap from_xml
               to_xml_selector dl e c Hsel) in Hfound.
    discriminate.
Qed.

End Delete.

Lemma single_result_extraction_witness :
  fst (get_mailbox_stats (Demo.always (Ok DemoData.stats_response))
         client_init)
    = stats_loop [("numMboxes", "6"); ("totalSize", "141077")] ∅ /\
  fst (get_mailbox_stats (Demo.always (Ok DemoData.empty_response))
         client_init)
    = Raise UnexpectedResponseShape /\
  fst (get_mailbox_stats (Demo.always (Ok DemoData.two_domains))
         client_init)
    = Raise UnexpectedResponseShape.
Proof.
  split; [|split].
  - refine (proj1 (proj2 (proj2 (proj2 (single_result_extraction
              (Demo.always (Ok DemoData.stats_response))
              Demo.from_xml Demo.to_xml_selector client_init
              DemoData.stats_response))
            (Elem "stats" [("numMboxes", "6"); ("totalSize", "141077")]
               "" [])
            _)) _); reflexivity.
  - refine (proj1 (proj2 (proj1 (proj2 (single_result_extraction
              (Demo.always (Ok DemoData.empty_response))
              Demo.from_xml Demo.to_xml_selector client_init
              DemoData.empty_response)) _)) _);
      [simpl; lia | reflexivity].
  - refine (proj1 (proj2 (proj1 (proj2 (single_result_extraction
              (Demo.always (Ok DemoData.two_domains))
              Demo.from_xml Demo.to_xml_selector client_init
              DemoData.two_domains)) _)) _);
      [simpl; lia | reflexivity].
Defined.

Lemma list_extraction_witness :
  (exists objs,
     fst (get_all_domains (Demo.always (Ok DemoData.two_domains))
            Demo.from_xml client_init) = Ok objs) /\
  fst (get_all_domains (Demo.always (Ok DemoData.empty_response))
         Demo.from_xml client_init) = Ok [] /\
  fst (get_all_mailboxes (Demo.always (Ok DemoData.empty_response))
         Demo.from_xml client_init) = Ok [].
Proof.
  split; [|split].
  - refine (proj1 (proj2 (proj1 (list_extraction
              (Demo.always (Ok DemoData.two_domains)) Demo.from_xml
              client_init DemoData.two_domains) _)) _);
      [reflexivity|].
    repeat constructor; eexists; reflexivity.
  - refine (proj2 (proj2 (proj1 (list_extraction
              (Demo.always (Ok DemoData.empty_response)) Demo.from_xml
              client_init DemoData.empty_response) _)) _); reflexivity.
  - refine (proj2 (proj2 (proj2 (list_extraction
              (Demo.always (Ok DemoData.empty_response)) Demo.from_xml
              client_init DemoData.empty_response) _)) _); reflexivity.
Defined.

Lemma delete_distribution_list_requests_witness :
  sent (snd (delete_distribution_list (Demo.dl_server [("id", "42")])
               Demo.from_xml Demo.to_xml_selector DemoData.by_id
               client_init))
    = [delete_dl_call "7"] /\
  sent (snd (delete_distribution_list (Demo.dl_server [("id", "42")])
               Demo.from_xml Demo.to_xml_selector DemoData.by_name
               client_init))
    = [get_dl_call DemoData.by_name_selector; delete_dl_call "42"].
Proof.
  split.
  - refine (proj2 (proj1 (delete_distribution_list_requests
              (Demo.dl_server [("id", "42")]) Demo.from_xml
              Demo.to_xml_selector DemoData.by_id client_init) "7" _)).
    vm_compute. reflexivity.
  - refine (eq_trans (proj2 (proj2 (delete_distribution_list_requests
              (Demo.dl_server [("id", "42")]) Demo.from_xml
              Demo.to_xml_selector DemoData.by_name client_init))
              DemoData.by_name_selector _ _) _);
      vm_compute; reflexivity.
Defined.

Lemma delete_distribution_list_unqualified_witness :
  fst (delete_distribution_list
         (Demo.dl_server [("name", "l@example.com")])
         Demo.from_xml Demo.to_xml_selector DemoData.by_name client_init)
    = Raise (ValueError "Unqualified DistributionList") /\
  exists sel,
    Demo.to_xml_selector DemoData.by_name = Ok sel /\
    sent (snd (delete_distribution_list
                 (Demo.dl_server [("name", "l@example.com")])
                 Demo.from_xml Demo.to_xml_selector DemoData.by_name
                 client_init))
      = ([] ++ [get_dl_call sel])%list.
Proof.
  refine (delete_distribution_list_unqualified
            (Demo.dl_server [("name", "l@example.com")])
            Demo.from_xml Demo.to_xml_selector DemoData.by_name
            (new_zobject DistributionList [("name", "l@example.com")])
            client_init _ _ _); vm_compute; reflexivity.
Defined.

(** * More on the login exchange *)

Section LoginEdges.

Variable elem_truthy : Xml -> bool.
Variable soap : list Call -> Call -> Result Xml.

(** The statements of [login] one after the other, for an exchange that
    answers with two elements. *)
Lemma session_login_two (u p : string) (now : datetime) (c : Client)
  (resp tok life : Xml) :
  soap (sent c) (auth_call u p) = Ok resp ->
  extractResponses resp = [tok; life] ->
  session_login soap u p now c =
    let c1 := record_call (auth_call u p) c in
    match py_int (xml_str life) with
    | Raise e =>
        (Raise e,
         set_session {| authToken := PElem tok;
                        end_date := end_date (session c) |} c1)
    | Ok n =>
        match rbind (timedelta n) (datetime_add now) with
        | Raise e =>
            (Raise e,
             set_session {| authToken := PStr (xml_str tok);
                            end_date := end_date (session c) |} c1)
        | Ok e =>
            (Ok tt,
             set_session {| authToken := PStr (xml_str tok);
                            end_date := Some e |} c1)
        end
    end.
Proof.
  intros Hs Hx.
  unfold session_login, bind, soap_call, lift, assign_authToken,
    assign_end_date. cbv zeta. fold (auth_call u p).
  rewrite Hs, Hx.
  destruct (py_int (xml_str life)) as [n|e]; [|reflexivity].
  destruct (timedelta n) as [d|e]; [|reflexivity]. simpl.
  now destruct (datetime_add now d).
Qed.

Lemma py_int_error (s : string) (e : PyExc) :
  py_int s = Raise e -> e = ValueError "invalid literal for int()".
Proof.
  unfold py_int.
  match goal with |- match ?r with _ => _ end = _ -> _ => destruct r end;
    intros H; [discriminate | now injection H as <-].
Qed.

Lemma expiry_overflows (now n : Z) :
  datetime_in_range (now + n * us_per_second) = false ->
  rbind (timedelta n) (datetime_add now) = Raise OverflowError.
Proof.
  intros H. unfold timedelta.
  destruct (Z.abs (n / seconds_per_day) >? timedelta_max_days);
    [reflexivity|].
  simpl. unfold datetime_add. now rewrite H.
Qed.

(** A lifetime that is not an integer: [login] raises the [ValueError] of
    [int], after [authToken] was overwritten with the element of the
    response; [end_date] is as it was.  On a session that never logged
    in, asking for the header then raises [AttributeError] when that
    element is truthy. *)
Theorem login_bad_lifetime (u p : string) (now : datetime) (c : Client)
  (resp tok life : Xml) (e : PyExc) :
  soap (sent c) (auth_call u p) = Ok resp ->
  extractResponses resp = [tok; life] ->
  py_int (xml_str life) = Raise e ->
  e = ValueError "invalid literal for int()" /\
  session_login soap u p now c =
    (Raise e,
     {| session := {| authToken := PElem tok;
                      end_date := end_date (session c) |};
        context := context c;
        sent := sent c ++ [auth_call u p] |}) /\
  (end_date (session c) = None -> elem_truthy tok = true ->
   forall t,
     get_context_header elem_truthy
       (session (snd (session_login soap u p now c))) t
       = Raise (AttributeError "end_date")).
Proof.
  intros Hs Hx Hn.
  split; [exact (py_int_error _ _ Hn)|].
  rewrite (session_login_two u p now c resp tok life Hs Hx), Hn.
  split; [reflexivity|].
  intros Hd Ht t. cbn [snd session set_session].
  unfold get_context_header, is_logged_in. cbn [authToken end_date truthy].
  now rewrite Ht, Hd.
Qed.

(** A response that does not hold exactly two elements: the unpacking
    raises [ValueError] before anything is assigned, and the session is
    as it was. *)
Theorem login_wrong_arity (u p : string) (now : datetime) (c : Client)
  (resp : Xml) :
  soap (sent c) (auth_call u p) = Ok resp ->
  length (extractResponses resp) <> 2%nat ->
  session_login soap u p now c =
    (Raise (ValueError "wrong number of values to unpack"),
     {| session := session c; context := context c;
        sent := sent c ++ [auth_call u p] |}).
Proof.
  intros Hs Hlen.
  unfold session_login, bind, soap_call, raise. cbv zeta.
  fold (auth_call u p). rewrite Hs.
  destruct (extractResponses resp) as [|a [|b [|x l]]]; try reflexivity.
  now contradict Hlen.
Qed.

(** For an exchange that answers with a token and an integer lifetime:
    [login] returns normally exactly when the login time plus the
    lifetime is still a [datetime]; otherwise it raises [OverflowError],
    the new token is stored and [end_date] keeps its old value. *)
Theorem login_overflow (u p : string) (now : datetime) (c : Client)
  (resp tok life : Xml) (n : Z) :
  soap (sent c) (auth_call u p) = Ok resp ->
  extractResponses resp = [tok; life] ->
  py_int (xml_str life) = Ok n ->
  datetime_in_range now = true ->
  (fst (session_login soap u p now c) = Ok tt <->
     datetime_in_range (now + n * us_per_second) = true) /\
  (datetime_in_range (now + n * us_per_second) = false ->
     session_login soap u p now c =
       (Raise OverflowError,
        {| session := {| authToken := PStr (xml_str tok);
                         end_date := end_date (session c) |};
           context := context c;
           sent := sent c ++ [auth_call u p] |})).
Proof.
  intros Hs Hx Hn Hnow.
  rewrite (session_login_two u p now c resp tok life Hs Hx), Hn.
  cbv zeta.
  destruct (datetime_in_range (now + n * us_per_second)) eqn:Hr.
  - rewrite (timedelta_in_range now n Hnow Hr). simpl.
    unfold datetime_add. rewrite Hr.
    split; [now split | discriminate].
  - rewrite (expiry_overflows now n Hr).
    split; [split; discriminate | reflexivity].
Qed.

(** What a login that returned normally leaves behind: the token as a
    string, an [end_date] inside the range of [datetime], and a session
    on which [is_logged_in] never raises. *)
Theorem login_leaves_wellformed (u p : string) (now : datetime)
  (c c' : Client) :
  session_login soap u p now c = (Ok tt, c') ->
  exists s e,
    authToken (session c') = PStr s /\
    end_date (session c') = Some e /\
    datetime_in_range e = true /\
    forall t, is_logged_in elem_truthy (session c') t
              = Ok (negb (String.eqb s "") && (t <=? e)).
Proof.
  intros H.
  destruct (session_login_ok_inv soap u p now c c' H)
    as (resp & tok & life & n & Hs & Hx & Hn & Hc).
  rewrite (session_login_two u p now c resp tok life Hs Hx), Hn in H.
  cbv zeta in H.
  destruct (rbind (timedelta n) (datetime_add now)) as [e|e] eqn:He;
    [|discriminate].
  injection H as <-.
  exists (xml_str tok), e. cbn [session set_session authToken end_date].
  split; [reflexivity|]. split; [reflexivity|]. split.
  - unfold timedelta in He.
    destruct (Z.abs (n / seconds_per_day) >? timedelta_max_days);
      [discriminate|].
    simpl in He. unfold datetime_add in He.
    destruct (datetime_in_range (now + n * us_per_second)) eqn:Hr;
      [|discriminate].
    now injection He as <-.
  - intros t. unfold is_logged_in. cbn [authToken end_date truthy].
    now destruct (negb (String.eqb (xml_str tok) "")).
Qed.

(** A successful login overwrites the whole session: what it leaves does
    not depend on the session or the header the client had before. *)
Theorem login_overwrites (u p : string) (now : datetime)
  (c1 c2 c1' : Client) :
  sent c1 = sent c2 ->
  session_login soap u p now c1 = (Ok tt, c1') ->
  exists c2', session_login soap u p now c2 = (Ok tt, c2') /\
              session c2' = session c1'.
Proof.
  intros Hsent H.
  destruct (session_login_ok_inv soap u p now c1 c1' H)
    as (resp & tok & life & n & Hs & Hx & Hn & Hc).
  rewrite (session_login_two u p now c1 resp tok life Hs Hx), Hn in H.
  rewrite Hsent in Hs.
  rewrite (session_login_two u p now c2 resp tok life Hs Hx), Hn.
  cbv zeta in *.
  destruct (rbind (timedelta n) (datetime_add now)) as [e|e];
    [|discriminate].
  injection H as <-. eexists. split; reflexivity.
Qed.

(** Time only runs out: a session that is logged in at some instant was
    logged in at every earlier one, and a session that is not logged in
    stays so at every later instant, as long as nobody logs in. *)
Theorem is_logged_in_monotone (s : ZimbraAPISession) (t t' : datetime) :
  t <= t' ->
  (is_logged_in elem_truthy s t' = Ok true ->
   is_logged_in elem_truthy s t = Ok true) /\
  (is_logged_in elem_truthy s t = Ok false ->
   is_logged_in elem_truthy s t' = Ok false).
Proof.
  intros Hle. unfold is_logged_in.
  destruct (truthy elem_truthy (authToken s)); simpl;
    [|split; [discriminate | reflexivity]].
  destruct (end_date s) as [d|]; [|split; discriminate].
  split; intros H; injection H as H; f_equal.
  - apply Z.leb_le in H. apply Z.leb_le. lia.
  - apply Z.leb_gt in H. apply Z.leb_gt. lia.
Qed.

(** [ZimbraAdminClient.login] after an exchange that answers with a
    non-empty token and lifetime [n]: when the header is built no later
    than the expiry, the client's [context] becomes the header with that
    token; when the expiry has already passed by then (a lifetime of zero
    or less, or a slow clock reading), [ShouldAuthenticateFirst] is
    raised although the session has stored the token, and [context] is
    not touched. *)
Theorem client_login_context (u p : string) (now1 now2 : datetime)
  (c : Client) (resp tok life : Xml) (n : Z) :
  soap (sent c) (auth_call u p) = Ok resp ->
  extractResponses resp = [tok; life] ->
  py_int (xml_str life) = Ok n ->
  xml_str tok <> "" ->
  datetime_in_range now1 = true ->
  datetime_in_range (now1 + n * us_per_second) = true ->
  let logged :=
    {| authToken := PStr (xml_str tok);
       end_date := Some (now1 + n * us_per_second) |} in
  (now2 <= now1 + n * us_per_second ->
     client_login elem_truthy soap u p now1 now2 c =
       (Ok tt,
        {| session := logged;
           context := Some {| ctx_xmlns := "urn:zimbra";
                              ctx_authToken := PStr (xml_str tok);
                              ctx_authToken_type := "xsd:string";
                              ctx_sessionId_null := "1" |};
           sent := sent c ++ [auth_call u p] |})) /\
  (now1 + n * us_per_second < now2 ->
     client_login elem_truthy soap u p now1 now2 c =
       (Raise ShouldAuthenticateFirst,
        {| session := logged; context := context c;
           sent := sent c ++ [auth_call u p] |})).
Proof.
  intros Hs Hx Hn Htok Hnow Hr logged.
  assert (Hl : session_login soap u p now1 c =
               (Ok tt, {| session := logged; context := context c;
                          sent := sent c ++ [auth_call u p] |})).
  { rewrite (session_login_two u p now1 c resp tok life Hs Hx), Hn.
    cbv zeta. rewrite (timedelta_in_range now1 n Hnow Hr). simpl.
    unfold datetime_add. now rewrite Hr. }
  unfold client_login, bind. rewrite Hl. cbn [session].
  unfold get_context_header, is_logged_in, logged.
  cbn [authToken end_date].
  rewrite (truthy_PStr elem_truthy _ Htok). cbn [negb].
  split; intros Ht.
  - replace (now2 <=? now1 + n * us_per_second) with true
      by (symmetry; apply Z.leb_le; lia).
    reflexivity.
  - replace (now2 <=? now1 + n * us_per_second) with false
      by (symmetry; apply Z.leb_gt; lia).
    reflexivity.
Qed.

End LoginEdges.

(** * More on the results of the operations *)

Lemma stats_loop_lookup (items : list (string * string)) :
  forall (m0 m : gmap string Z),
    stats_loop items m0 = Ok m ->
    NoDup (items.*1) ->
    forall k n,
      m !! k = Some n <->
      (exists v, (k, v) ∈ items /\ py_int v = Ok n) \/
      ((k ∉ items.*1) /\ m0 !! k = Some n).
Proof.
  induction items as [|[k0 v0] rest IH]; intros m0 m H Hnd k n.
  - injection H as <-. split.
    + intros Hm. right. split; [apply not_elem_of_nil | exact Hm].
    + intros [(v & Hin & _)|[_ Hm]]; [|exact Hm].
      now apply elem_of_nil in Hin.
  - simpl in H. destruct (py_int v0) as [n0|e0] eqn:E0; [|discriminate].
    simpl in H. rewrite fmap_cons in Hnd. simpl in Hnd.
    apply NoDup_cons in Hnd as [Hk0 Hnd].
    rewrite (IH _ _ H Hnd k n). rewrite fmap_cons. simpl. split.
    + intros [(v & Hin & Hv)|[Hk Hm]].
      * left. exists v. split; [now apply elem_of_cons; right | exact Hv].
      * destruct (decide (k0 = k)) as [->|Hne].
        -- rewrite lookup_insert_eq in Hm. injection Hm as <-.
           left. exists v0. split; [now apply elem_of_cons; left | exact E0].
        -- rewrite lookup_insert_ne in Hm by exact Hne.
           right. split; [|exact Hm].
           apply not_elem_of_cons. split; [congruence | exact Hk].
    + intros [(v & Hin & Hv)|[Hk Hm]].
      * apply elem_of_cons in Hin as [Heq|Hin].
        -- injection Heq as -> ->. right. split; [exact Hk0|].
           rewrite lookup_insert_eq. congruence.
        -- left. now exists v.
      * apply not_elem_of_cons in Hk as [Hne Hk].
        right. split; [exact Hk|].
        rewrite lookup_insert_ne by congruence. exact Hm.
Qed.

Lemma stats_loop_ok (items : list (string * string)) :
  forall m0 : gmap string Z,
    is_ok (stats_loop items m0) = true <->
    Forall (fun kv => is_ok (py_int kv.2) = true) items.
Proof.
  induction items as [|[k0 v0] rest IH]; intros m0; simpl.
  - split; [constructor | reflexivity].
  - destruct (py_int v0) as [n0|e0] eqn:E0; simpl.
    + rewrite IH. split.
      * intros F. constructor; [simpl; now rewrite E0 | exact F].
      * intros F. now apply Forall_cons in F as [_ F].
    + split; [discriminate|].
      intros F. apply Forall_cons in F as [F _]. simpl in F.
      now rewrite E0 in F.
Qed.

Lemma stats_loop_error (items : list (string * string)) :
  forall (m0 : gmap string Z) (e : PyExc),
    stats_loop items m0 = Raise e ->
    e = ValueError "invalid literal for int()".
Proof.
  induction items as [|[k0 v0] rest IH]; intros m0 e; simpl.
  - discriminate.
  - destruct (py_int v0) as [n0|e0] eqn:E0; simpl.
    + apply IH.
    + intros H. injection H as <-. exact (py_int_error _ _ E0).
Qed.

Lemma count_loop_pairs (from_xml : ZClass -> Xml -> Result ZObject)
  (l : list Xml) :
  forall acc r,
    count_loop from_xml l acc = Ok r ->
    exists r', r = (acc ++ r')%list /\
      Forall2 (fun i p => from_xml ClassOfService i = Ok p.1 /\
                          py_int (xml_str i) = Ok p.2) l r'.
Proof.
  induction l as [|i rest IH]; intros acc r; simpl.
  - intros H. injection H as <-. exists []. split; [|constructor].
    now rewrite app_nil_r.
  - destruct (from_xml ClassOfService i) as [cos|e] eqn:Ec;
      simpl; [|discriminate].
    destruct (py_int (xml_str i)) as [n|e] eqn:En; simpl; [|discriminate].
    intros H. destruct (IH _ _ H) as (r' & -> & F).
    exists ((cos, n) :: r'). split.
    + now rewrite <- app_assoc.
    + constructor; [now split | exact F].
Qed.

Lemma count_loop_complete (from_xml : ZClass -> Xml -> Result ZObject)
  (l : list Xml) (r' : list (ZObject * Z)) :
  Forall2 (fun i p => from_xml ClassOfService i = Ok p.1 /\
                      py_int (xml_str i) = Ok p.2) l r' ->
  forall acc, count_loop from_xml l acc = Ok (acc ++ r')%list.
Proof.
  induction 1 as [|i [cos n] l r' [Hc Hn] _ IH]; intros acc; simpl.
  - now rewrite app_nil_r.
  - simpl in Hc, Hn. rewrite Hc, Hn. simpl.
    rewrite IH. now rewrite <- app_assoc.
Qed.

(** The first element of the response that does not convert, or whose
    text is not an integer, ends the loop with its error. *)
Lemma count_loop_first_error (from_xml : ZClass -> Xml -> Result ZObject)
  (l1 l2 : list Xml) (r1 : list (ZObject * Z)) (x : Xml) (e : PyExc) :
  Forall2 (fun i p => from_xml ClassOfService i = Ok p.1 /\
                      py_int (xml_str i) = Ok p.2) l1 r1 ->
  rbind (from_xml ClassOfService x)
    (fun cos => rbind (py_int (xml_str x)) (fun n => Ok (cos, n)))
    = Raise e ->
  forall acc, count_loop from_xml (l1 ++ x :: l2) acc = Raise e.
Proof.
  induction 1 as [|i [cos n] l1 r1 [Hc Hn] _ IH]; intros He acc; simpl.
  - destruct (from_xml ClassOfService x) as [cos|e1]; simpl in *;
      [|now injection He as ->].
    destruct (py_int (xml_str x)) as [n|e2]; simpl in *;
      [discriminate | now injection He as ->].
  - simpl in Hc, Hn. rewrite Hc, Hn. simpl. now apply IH.
Qed.

Lemma comprehension_first_error {A B} (f : A -> Result B)
  (l1 l2 : list A) (x : A) (e : PyExc) :
  Forall (fun y => is_ok (f y) = true) l1 ->
  f x = Raise e ->
  comprehension f (l1 ++ x :: l2) = Raise e.
Proof.
  intros F Hx. induction F as [|y l1 Hy _ IH]; simpl.
  - now rewrite Hx.
  - destruct (f y); [|discriminate]. simpl. now rewrite IH.
Qed.

Section Results.

Variable soap : list Call -> Call -> Result Xml.
Variable from_xml : ZClass -> Xml -> Result ZObject.
Variable to_xml_selector : ZObject -> Result Xml.

Lemma get_mailbox_stats_run (c : Client) (r x : Xml) :
  soap (sent c) stats_call = Ok r ->
  extractResponses r = [x] ->
  fst (get_mailbox_stats soap c) = stats_loop (attributes x) ∅.
Proof.
  intros Hs Hx. unfold get_mailbox_stats, bind, lift, soap_call.
  cbv beta iota zeta. fold stats_call. rewrite Hs. cbv beta iota.
  now rewrite (extractSingleResponse_one r x Hx).
Qed.

(** [get_mailbox_stats] on a response with one element whose attribute
    names are distinct: the dict returned has exactly the entries
    name -> [int(value)] of that element's attributes. *)
Theorem mailbox_stats_dict (c : Client) (r x : Xml) (m : gmap string Z) :
  soap (sent c) stats_call = Ok r ->
  extractResponses r = [x] ->
  NoDup ((attributes x).*1) ->
  fst (get_mailbox_stats soap c) = Ok m ->
  forall k n,
    m !! k = Some n <->
    exists v, (k, v) ∈ attributes x /\ py_int v = Ok n.
Proof.
  intros Hs Hx Hnd Hm k n.
  rewrite (get_mailbox_stats_run c r x Hs Hx) in Hm.
  rewrite (stats_loop_lookup _ _ _ Hm Hnd k n). split.
  - intros [H|[_ H]]; [exact H|]. now rewrite lookup_empty in H.
  - intros H. now left.
Qed.

(** [get_mailbox_stats] is all or nothing: it returns a dict exactly when
    every attribute value of the element is an integer literal; one value
    that is not makes the whole call raise the [ValueError] of [int]. *)
Theorem mailbox_stats_all_or_nothing (c : Client) (r x : Xml) :
  soap (sent c) stats_call = Ok r ->
  extractResponses r = [x] ->
  (is_ok (fst (get_mailbox_stats soap c)) = true <->
   Forall (fun kv => is_ok (py_int kv.2) = true) (attributes x)) /\
  (forall e, fst (get_mailbox_stats soap c) = Raise e ->
             e = ValueError "invalid literal for int()").
Proof.
  intros Hs Hx. rewrite (get_mailbox_stats_run c r x Hs Hx). split.
  - apply stats_loop_ok.
  - intros e. apply stats_loop_error.
Qed.

(** [count_account]: the call returns a list exactly when every element
    of the response converts to a class of service and has an integer as
    its text, and the list is then one pair per element, in the order of
    the response: the class of service read from the element and that
    integer.  A response without elements gives the empty list; the first
    element that fails ends the call with its error, and no partial list
    is returned. *)
Theorem count_account_pairs (domain : ZObject) (sel resp : Xml)
  (c : Client) :
  to_xml_selector domain = Ok sel ->
  soap (sent c) {| request := "CountAccountRequest";
                   args := SelfWrapEl sel |} = Ok resp ->
  (forall r,
     fst (count_account soap from_xml to_xml_selector domain c) = Ok r <->
     Forall2 (fun i p => from_xml ClassOfService i = Ok p.1 /\
                         py_int (xml_str i) = Ok p.2)
       (extractResponses resp) r) /\
  (extractResponses resp = [] ->
   fst (count_account soap from_xml to_xml_selector domain c) = Ok []) /\
  (forall l1 l2 r1 x e,
     extractResponses resp = (l1 ++ x :: l2)%list ->
     Forall2 (fun i p => from_xml ClassOfService i = Ok p.1 /\
                         py_int (xml_str i) = Ok p.2) l1 r1 ->
     rbind (from_xml ClassOfService x)
       (fun cos => rbind (py_int (xml_str x)) (fun n => Ok (cos, n)))
       = Raise e ->
     fst (count_account soap from_xml to_xml_selector domain c) = Raise e).
Proof.
  intros Hsel Hs.
  assert (E : fst (count_account soap from_xml to_xml_selector domain c) =
              count_loop from_xml (extractResponses resp) []).
  { unfold count_account, bind, lift, soap_call. rewrite Hsel.
    cbv beta iota zeta. now rewrite Hs. }
  rewrite E. split; [|split].
  - intros r. split.
    + intros Hr. destruct (count_loop_pairs _ _ _ _ Hr) as (r' & -> & F).
      exact F.
    + intros F. exact (count_loop_complete from_xml _ _ F []).
  - now intros ->.
  - intros l1 l2 r1 x e -> F He.
    exact (count_loop_first_error from_xml l1 l2 r1 x e F He []).
Qed.

(** The list operations stop at the first element that does not convert:
    the call raises that element's error and returns no partial list. *)
Theorem list_first_error (c : Client) (r : Xml) (l1 l2 : list Xml)
  (x : Xml) (e : PyExc) :
  extractResponses r = (l1 ++ x :: l2)%list ->
  (soap (sent c) domains_call = Ok r ->
   Forall (fun y => is_ok (from_xml Domain y) = true) l1 ->
   from_xml Domain x = Raise e ->
   fst (get_all_domains soap from_xml c) = Raise e) /\
  (soap (sent c) mailboxes_call = Ok r ->
   Forall (fun y => is_ok (from_xml Mailbox y) = true) l1 ->
   from_xml Mailbox x = Raise e ->
   fst (get_all_mailboxes soap from_xml c) = Raise e).
Proof.
  intros Hx. split; intros Hs F He.
  - unfold get_all_domains, bind, lift, soap_call.
    cbv beta iota zeta. fold domains_call. rewrite Hs. cbv beta iota.
    cbn [fst]. rewrite Hx. now apply comprehension_first_error.
  - unfold get_all_mailboxes, bind, lift, soap_call.
    cbv beta iota zeta. fold mailboxes_call. rewrite Hs. cbv beta iota.
    cbn [fst]. rewrite Hx. now apply comprehension_first_error.
Qed.

(** When the selector cannot be built, the error of [to_xml_selector]
    comes out unchanged and no request is sent. *)
Theorem no_selector_no_request (c : Client) (e : PyExc) :
  (forall d, to_xml_selector d = Raise e ->
     count_account soap from_xml to_xml_selector d c = (Raise e, c) /\
     get_distribution_list soap from_xml to_xml_selector d c
       = (Raise e, c)) /\
  (forall a,
     to_xml_selector (new_zobject Mailbox [("id", a)]) = Raise e ->
     get_account_mailbox soap from_xml to_xml_selector a c = (Raise e, c)).
Proof.
  split.
  - intros d H. split.
    + unfold count_account, bind, lift. now rewrite H.
    + unfold get_distribution_list, bind, lift. now rewrite H.
  - intros a H. unfold get_account_mailbox, bind, lift. now rewrite H.
Qed.

(** Deleting by a description without id when the lookup fails: an
    [AttributeError] from anywhere inside the lookup comes out as
    [ValueError], any other error comes out unchanged, and the client is
    left as the lookup left it: no delete request is sent. *)
Theorem delete_lookup_failure (dl : ZObject) (c : Client) (e : PyExc) :
  zattrs dl !! "id" = None ->
  fst (get_distribution_list soap from_xml to_xml_selector dl c)
    = Raise e ->
  fst (delete_distribution_list soap from_xml to_xml_selector dl c) =
    Raise (match e with
           | AttributeError _ => ValueError "Unqualified DistributionList"
           | _ => e
           end) /\
  snd (delete_distribution_list soap from_xml to_xml_selector dl c) =
    snd (get_distribution_list soap from_xml to_xml_selector dl c).
Proof.
  intros Hid He.
  rewrite (delete_without_id soap from_xml to_xml_selector dl c Hid).
  destruct (get_distribution_list soap from_xml to_xml_selector dl c)
    as [[found|e'] c1]; simpl in He; [discriminate|].
  injection He as ->. now destruct e.
Qed.

(** Deleting by id: the one delete request decides the outcome.  The
    call returns [None] when the request is answered, and any error of
    the request, an [AttributeError] too, comes out unchanged. *)
Theorem delete_by_id_outcome (dl : ZObject) (i : string) (c : Client) :
  zattrs dl !! "id" = Some i ->
  delete_distribution_list soap from_xml to_xml_selector dl c =
    (match soap (sent c) (delete_dl_call i) with
     | Ok _ => Ok tt
     | Raise e => Raise e
     end,
     record_call (delete_dl_call i) c).
Proof.
  intros Hid.
  rewrite (delete_with_id soap from_xml to_xml_selector dl i c Hid).
  unfold send_delete, bind, soap_call, ret. cbv beta iota zeta.
  fold (delete_dl_call i).
  now destruct (soap (sent c) (delete_dl_call i)).
Qed.

End Results.

(** * How many requests an operation sends *)

Lemma sends_ret {A} (a : A) : sends_at_most 0 (ret a).
Proof. intros c. exists []. simpl. now rewrite app_nil_r. Qed.

Lemma sends_raise {A} (e : PyExc) : sends_at_most 0 (@raise A e).
Proof. intros c. exists []. simpl. now rewrite app_nil_r. Qed.

Lemma sends_lift {A} (r : Result A) : sends_at_most 0 (lift r).
Proof. intros c. exists []. simpl. now rewrite app_nil_r. Qed.

Lemma sends_soap_call (soap : list Call -> Call -> Result Xml)
  (name : string) (a : CallArgs) :
  sends_at_most 1 (soap_call soap name a).
Proof. intros c. now exists [ {| request := name; args := a |} ]. Qed.

Lemma sends_bind {A B} (n1 n2 : nat) (m : M A) (k : A -> M B) :
  sends_at_most n1 m -> (forall a, sends_at_most n2 (k a)) ->
  sends_at_most (n1 + n2) (bind m k).
Proof.
  intros Hm Hk c. unfold bind.
  destruct (Hm c) as (l1 & E1 & L1).
  destruct (m c) as [[a|e] c1]; simpl in *.
  - destruct (Hk a c1) as (l2 & E2 & L2).
    exists (l1 ++ l2)%list. rewrite E2, E1, <- app_assoc.
    split; [reflexivity|]. rewrite length_app. lia.
  - exists l1. split; [exact E1 | lia].
Qed.

Lemma sends_try {A} (n1 n2 : nat) (body handler : M A) :
  sends_at_most n1 body -> sends_at_most n2 handler ->
  sends_at_most (n1 + n2) (try_except_AttributeError body handler).
Proof.
  intros Hb Hh c. unfold try_except_AttributeError.
  destruct (Hb c) as (l1 & E1 & L1).
  destruct (body c) as [[a|e] c1]; simpl in *.
  - exists l1. split; [exact E1 | lia].
  - destruct e; simpl; try (exists l1; split; [exact E1 | lia]).
    destruct (Hh c1) as (l2 & E2 & L2).
    exists (l1 ++ l2)%list. rewrite E2, E1, <- app_assoc.
    split; [reflexivity|]. rewrite length_app. lia.
Qed.

Lemma sends_mono {A} (n n' : nat) (m : M A) :
  (n <= n')%nat -> sends_at_most n m -> sends_at_most n' m.
Proof.
  intros Hle Hm c. destruct (Hm c) as (l & E & L).
  exists l. split; [exact E | lia].
Qed.

Section Requests.

Variable soap : list Call -> Call -> Result Xml.
Variable from_xml : ZClass -> Xml -> Result ZObject.
Variable to_xml_selector : ZObject -> Result Xml.

(** Count the requests of a computation written with [bind],
    [try_except_AttributeError] and the primitives. *)
Ltac count_requests :=
  repeat (cbv beta zeta; first
    [ eapply sends_bind; [|intros ?]
    | eapply sends_try
    | apply sends_soap_call | apply sends_lift | apply sends_ret
    | apply sends_raise ]).

Lemma sends_get_distribution_list (dl : ZObject) :
  sends_at_most 1 (get_distribution_list soap from_xml to_xml_selector dl).
Proof.
  unfold get_distribution_list.
  eapply sends_mono; [|count_requests]. simpl. lia.
Qed.

Lemma sends_delete_distribution_list (dl : ZObject) :
  sends_at_most 2
    (delete_distribution_list soap from_xml to_xml_selector dl).
Proof.
  unfold delete_distribution_list.
  eapply sends_mono;
    [| eapply sends_bind;
       [ eapply sends_try;
         [ apply sends_lift
         | eapply sends_try;
           [ eapply sends_bind;
             [ apply sends_get_distribution_list
             | intros ?; apply sends_lift ]
           | apply sends_raise ] ]
       | intros ?; count_requests ] ].
  simpl. lia.
Qed.

Lemma client_after_context (op : ClientOp) (c : Client) :
  context (client_after soap from_xml to_xml_selector op c) = context c.
Proof.
  destruct op; simpl;
    match goal with
    | |- _ (snd (?m c)) = _ =>
        assert (K : keeps_session m);
        [ unfold get_all_domains, get_mailbox_stats, count_account,
            get_all_mailboxes, get_account_mailbox, get_distribution_list,
            create_distribution_list, delete_distribution_list;
          repeat (first
            [ apply keeps_bind; [|intros ?] | apply keeps_try
            | apply keeps_soap_call | apply keeps_lift | apply keeps_ret
            | apply keeps_raise ])
        | exact (proj2 (K c)) ]
    end.
Qed.

(** No operation other than [login] resends or drops a request: the log
    after it is the log before it followed by at most one new request
    (at most two for [delete_distribution_list]), and the [context]
    header is not touched. *)
Theorem client_op_requests (op : ClientOp) (c : Client) :
  (exists l,
     sent (client_after soap from_xml to_xml_selector op c)
       = (sent c ++ l)%list /\
     (length l <= request_budget op)%nat) /\
  context (client_after soap from_xml to_xml_selector op c) = context c.
Proof.
  split; [|apply client_after_context].
  destruct op; simpl;
    match goal with
    | |- exists l, sent (snd (?m c)) = _ /\ (_ <= ?n)%nat =>
        assert (K : sends_at_most n m);
        [ first [ apply sends_delete_distribution_list
                | apply sends_get_distribution_list
                | unfold get_all_domains, get_mailbox_stats, count_account,
                    get_all_mailboxes, get_account_mailbox,
                    create_distribution_list;
                  eapply sends_mono; [|count_requests]; simpl; lia ]
        | exact (K c) ]
    end.
Qed.

(** A sequence of operations only extends the log: the requests sent
    before it are still there, in order, followed by at most two new ones
    per operation. *)
Theorem client_ops_extend_log (ops : list ClientOp) (c : Client) :
  exists l,
    sent (client_after_all soap from_xml to_xml_selector ops c)
      = (sent c ++ l)%list /\
    (length l <= 2 * length ops)%nat.
Proof.
  revert c. induction ops as [|op ops IH]; intros c.
  - exists []. simpl. now rewrite app_nil_r.
  - unfold client_after_all in *. simpl.
    destruct (IH (client_after soap from_xml to_xml_selector op c))
      as (l2 & E2 & L2).
    assert (H1 : exists l,
               sent (client_after soap from_xml to_xml_selector op c)
                 = (sent c ++ l)%list /\ (length l <= 2)%nat).
    { destruct op; simpl;
        match goal with
        | |- exists l, sent (snd (?m c)) = _ /\ _ =>
            assert (K : sends_at_most 2 m);
            [ first [ apply sends_delete_distribution_list
                    | apply (sends_mono 1 2); [lia|];
                      apply sends_get_distribution_list
                    | unfold get_all_domains, get_mailbox_stats,
                        count_account, get_all_mailboxes,
                        get_account_mailbox, create_distribution_list;
                      eapply sends_mono; [|count_requests]; simpl; lia ]
            | exact (K c) ]
        end. }
    destruct H1 as (l1 & E1 & L1).
    exists (l1 ++ l2)%list. rewrite E2, E1, <- app_assoc.
    split; [reflexivity|]. rewrite length_app. lia.
Qed.

End Requests.

(** * Instances of the properties above *)

Lemma login_bad_lifetime_witness :
  Demo.logged_in_client "tok" "an hour" =
    (Raise (ValueError "invalid literal for int()"),
     {| session := {| authToken := PElem (Elem "authToken" [] "tok" []);
                      end_date := end_date (session client_init) |};
        context := context client_init;
        sent := sent client_init ++ [auth_call "admin" "secret"] |}).
Proof.
  refine (proj1 (proj2 (login_bad_lifetime Demo.elem_truthy
            (Demo.always (Ok (Demo.auth_response "tok" "an hour")))
            "admin" "secret" Demo.t0 client_init
            (Demo.auth_response "tok" "an hour")
            (Elem "authToken" [] "tok" [])
            (Elem "lifetime" [] "an hour" [])
            (ValueError "invalid literal for int()") _ _ _)));
    reflexivity.
Defined.

Lemma login_wrong_arity_witness :
  session_login (Demo.always (Ok DemoData.empty_response))
    "admin" "secret" Demo.t0 DemoData.stale_client =
    (Raise (ValueError "wrong number of values to unpack"),
     {| session := session DemoData.stale_client;
        context := context DemoData.stale_client;
        sent := sent DemoData.stale_client
                  ++ [auth_call "admin" "secret"] |}).
Proof.
  refine (login_wrong_arity (Demo.always (Ok DemoData.empty_response))
            "admin" "secret" Demo.t0 DemoData.stale_client
            DemoData.empty_response _ _);
    [reflexivity | simpl; lia].
Defined.

Lemma login_overflow_witness :
  session_login
    (Demo.always (Ok (Demo.auth_response "new" "1000000000000")))
    "admin" "secret" Demo.t0 DemoData.stale_client =
    (Raise OverflowError,
     {| session := {| authToken := PStr "new";
                      end_date := end_date (session DemoData.stale_client) |};
        context := context DemoData.stale_client;
        sent := sent DemoData.stale_client
                  ++ [auth_call "admin" "secret"] |}).
Proof.
  refine (proj2 (login_overflow
            (Demo.always (Ok (Demo.auth_response "new" "1000000000000")))
            "admin" "secret" Demo.t0 DemoData.stale_client
            (Demo.auth_response "new" "1000000000000")
            (Elem "authToken" [] "new" [])
            (Elem "lifetime" [] "1000000000000" [])
            1000000000000 _ _ _ _) _); reflexivity.
Defined.

Lemma login_leaves_wellformed_witness :
  exists s e,
    authToken (session (snd (Demo.logged_in_client "tok" "3600")))
      = PStr s /\
    end_date (session (snd (Demo.logged_in_client "tok" "3600")))
      = Some e /\
    datetime_in_range e = true /\
    forall t,
      is_logged_in Demo.elem_truthy
        (session (snd (Demo.logged_in_client "tok" "3600"))) t
      = Ok (negb (String.eqb s "") && (t <=? e)).
Proof.
  refine (login_leaves_wellformed Demo.elem_truthy
            (Demo.always (Ok (Demo.auth_response "tok" "3600")))
            "admin" "secret" Demo.t0 client_init
            (snd (Demo.logged_in_client "tok" "3600")) _).
  reflexivity.
Defined.

Lemma login_overwrites_witness :
  exists c2',
    session_login (Demo.always (Ok (Demo.auth_response "tok" "3600")))
      "admin" "secret" Demo.t0 DemoData.stale_client = (Ok tt, c2') /\
    session c2' = session (snd (Demo.logged_in_client "tok" "3600")).
Proof.
  refine (login_overwrites
            (Demo.always (Ok (Demo.auth_response "tok" "3600")))
            "admin" "secret" Demo.t0 client_init DemoData.stale_client
            (snd (Demo.logged_in_client "tok" "3600")) _ _);
    reflexivity.
Defined.

Lemma is_logged_in_monotone_witness :
  is_logged_in Demo.elem_truthy
    {| authToken := PStr "tok"; end_date := Some (Demo.t0 + 5) |} Demo.t0
    = Ok true /\
  is_logged_in Demo.elem_truthy
    {| authToken := PStr "tok"; end_date := Some (Demo.t0 + 5) |}
    (Demo.t0 + 9) = Ok false.
Proof.
  split.
  - refine (proj1 (is_logged_in_monotone Demo.elem_truthy
              {| authToken := PStr "tok"; end_date := Some (Demo.t0 + 5) |}
              Demo.t0 (Demo.t0 + 5) _) _); [lia | reflexivity].
  - refine (proj2 (is_logged_in_monotone Demo.elem_truthy
              {| authToken := PStr "tok"; end_date := Some (Demo.t0 + 5) |}
              (Demo.t0 + 6) (Demo.t0 + 9) _) _); [lia | reflexivity].
Defined.

Lemma client_login_context_witness :
  context (snd (client_login Demo.elem_truthy
                  (Demo.always (Ok (Demo.auth_response "tok" "3600")))
                  "admin" "secret" Demo.t0 (Demo.t0 + 1) client_init))
    = Some {| ctx_xmlns := "urn:zimbra"; ctx_authToken := PStr "tok";
              ctx_authToken_type := "xsd:string";
              ctx_sessionId_null := "1" |} /\
  fst (client_login Demo.elem_truthy
         (Demo.always (Ok (Demo.auth_response "tok" "0")))
         "admin" "secret" Demo.t0 (Demo.t0 + 1) client_init)
    = Raise ShouldAuthenticateFirst.
Proof.
  split.
  - refine (f_equal (fun r => context (snd r))
              (proj1 (client_login_context Demo.elem_truthy
                 (Demo.always (Ok (Demo.auth_response "tok" "3600")))
                 "admin" "secret" Demo.t0 (Demo.t0 + 1) client_init
                 (Demo.auth_response "tok" "3600")
                 (Elem "authToken" [] "tok" [])
                 (Elem "lifetime" [] "3600" []) 3600 _ _ _ _ _ _) _));
      try reflexivity; try (simpl; discriminate);
      unfold us_per_second; lia.
  - refine (f_equal fst
              (proj2 (client_login_context Demo.elem_truthy
                 (Demo.always (Ok (Demo.auth_response "tok" "0")))
                 "admin" "secret" Demo.t0 (Demo.t0 + 1) client_init
                 (Demo.auth_response "tok" "0")
                 (Elem "authToken" [] "tok" [])
                 (Elem "lifetime" [] "0" []) 0 _ _ _ _ _ _) _));
      try reflexivity; simpl; discriminate.
Defined.

Lemma mailbox_stats_dict_witness :
  fst (get_mailbox_stats (Demo.always (Ok DemoData.stats_response))
         client_init)
    = Ok (<["totalSize" := 141077]> (<["numMboxes" := 6]> ∅)) /\
  (<["totalSize" := 141077]> (<["numMboxes" := 6]> ∅) : gmap string Z)
    !! "numMboxes" = Some 6.
Proof.
  assert (H : fst (get_mailbox_stats
                     (Demo.always (Ok DemoData.stats_response)) client_init)
              = Ok (<["totalSize" := 141077]> (<["numMboxes" := 6]> ∅)))
    by (vm_compute; reflexivity).
  split; [exact H|].
  refine (proj2 (mailbox_stats_dict
            (Demo.always (Ok DemoData.stats_response)) client_init
            DemoData.stats_response
            (Elem "stats" [("numMboxes", "6"); ("totalSize", "141077")]
               "" [])
            _ _ _ _ H "numMboxes" 6) _).
  - reflexivity.
  - reflexivity.
  - simpl. apply (bool_decide_unpack _). vm_compute. exact I.
  - exists "6". split; [|reflexivity].
    apply elem_of_cons. now left.
Defined.

Lemma mailbox_stats_all_or_nothing_witness :
  (is_ok (fst (get_mailbox_stats
                 (Demo.always (Ok DemoData.bad_stats_response))
                 client_init)) = true <->
   Forall (fun kv => is_ok (py_int kv.2) = true)
     [("numMboxes", "6"); ("totalSize", "big")]) /\
  (forall e,
     fst (get_mailbox_stats (Demo.always (Ok DemoData.bad_stats_response))
            client_init) = Raise e ->
     e = ValueError "invalid literal for int()").
Proof.
  refine (mailbox_stats_all_or_nothing
            (Demo.always (Ok DemoData.bad_stats_response)) client_init
            DemoData.bad_stats_response
            (Elem "stats" [("numMboxes", "6"); ("totalSize", "big")] "" [])
            _ _); reflexivity.
Defined.

Lemma count_account_pairs_witness :
  fst (count_account (Demo.always (Ok DemoData.count_response))
         Demo.from_xml Demo.to_xml_selector DemoData.some_domain
         client_init)
    = Ok [(new_zobject ClassOfService [("id", "c1"); ("name", "default")],
           3);
          (new_zobject ClassOfService [("id", "c2"); ("name", "premium")],
           5)].
Proof.
  refine (proj2 (proj1 (count_account_pairs
            (Demo.always (Ok DemoData.count_response)) Demo.from_xml
            Demo.to_xml_selector DemoData.some_domain
            DemoData.some_domain_selector DemoData.count_response
            client_init _ _) _) _); try (vm_compute; reflexivity).
  repeat constructor.
Defined.

Lemma list_first_error_witness :
  fst (get_all_domains (Demo.always (Ok DemoData.mixed_domains))
         DemoData.picky_from_xml client_init)
    = Raise (ValueError "unexpected element").
Proof.
  refine (proj1 (list_first_error
            (Demo.always (Ok DemoData.mixed_domains))
            DemoData.picky_from_xml client_init DemoData.mixed_domains
            [Elem "domain" [("id", "d1"); ("name", "a.example.com")] "" []]
            [Elem "domain" [("id", "d2"); ("name", "b.example.com")] "" []]
            (Elem "comment" [] "maintenance" [])
            (ValueError "unexpected element") _) _ _ _);
    try reflexivity.
  repeat constructor.
Defined.

Lemma no_selector_no_request_witness :
  get_distribution_list (Demo.always (Ok DemoData.empty_response))
    Demo.from_xml Demo.to_xml_selector DemoData.anonymous client_init
    = (Raise (ValueError "no selector"), client_init).
Proof.
  refine (proj2 (proj1 (no_selector_no_request
            (Demo.always (Ok DemoData.empty_response))
            Demo.from_xml Demo.to_xml_selector client_init
            (ValueError "no selector")) DemoData.anonymous _)).
  vm_compute. reflexivity.
Defined.

Lemma delete_lookup_failure_witness :
  fst (delete_distribution_list
         (Demo.always (Raise (AttributeError "children")))
         Demo.from_xml Demo.to_xml_selector DemoData.by_name client_init)
    = Raise (ValueError "Unqualified DistributionList") /\
  fst (delete_distribution_list
         (Demo.always (Raise (Fault "connection refused")))
         Demo.from_xml Demo.to_xml_selector DemoData.by_name client_init)
    = Raise (Fault "connection refused").
Proof.
  split.
  - refine (proj1 (delete_lookup_failure
              (Demo.always (Raise (AttributeError "children")))
              Demo.from_xml Demo.to_xml_selector DemoData.by_name
              client_init (AttributeError "children") _ _));
      vm_compute; reflexivity.
  - refine (proj1 (delete_lookup_failure
              (Demo.always (Raise (Fault "connection refused")))
              Demo.from_xml Demo.to_xml_selector DemoData.by_name
              client_init (Fault "connection refused") _ _));
      vm_compute; reflexivity.
Defined.

Lemma delete_by_id_outcome_witness :
  delete_distribution_list
    (Demo.always (Raise (AttributeError "call")))
    Demo.from_xml Demo.to_xml_selector DemoData.by_id client_init
    = (Raise (AttributeError "call"),
       record_call (delete_dl_call "7") client_init).
Proof.
  refine (delete_by_id_outcome
            (Demo.always (Raise (AttributeError "call")))
            Demo.from_xml Demo.to_xml_selector DemoData.by_id "7"
            client_init _).
  vm_compute. reflexivity.
Defined.
